(** * falcon_graphql_server: the GraphQL-over-HTTP resource

    A shallow embedding of [src/falcon_graphql_server.py]: the responders
    of [GraphQLResource] ([on_get], [on_post], [on_options], [on_head],
    [on_put], [on_patch], [on_delete]), the [set_graphql_allow_header]
    hook that [falcon.after] attaches to each of them, and the Python
    operations they rely on (truthiness, [str], [in], subscripting,
    [json.dumps]); then [StaticGraphiQLResource.on_get] over the files it
    can open, and the resolvers of [Query] over a random generator.

    What the module imports and does not define is taken as a parameter:
    [json.loads] and [repr] through the class [Py.Builtins], the Graphene
    schema through the type [engine]. Theorems hold for every choice of
    them; reference instances are given for closed examples. *)

From Stdlib Require Import ZArith String Ascii DecimalString List Bool Lia.
From stdpp Require Import gmap strings list.

Open Scope string_scope.
Local Set Warnings "-register-all".

(* ===================================================================== *)
(** * Python values                                                       *)
(* ===================================================================== *)

Module Py.

(** The values [json.loads] builds and the responders handle. A [str] is a
    Rocq string, one character per code point (code points above U+00FF
    are outside the model). A float is identified with the text [repr]
    gives for it (0.0, -0.0, 1.5, nan, inf, ...). A dict is the list of its
    items in insertion order ([OrderedDict]); its keys are distinct. *)
Inductive pyval : Type :=
| PNone
| PBool (b : bool)
| PInt (n : Z)
| PFloat (r : string)
| PStr (s : string)
| PList (l : list pyval)
| PDict (d : list (string * pyval)).

(** Exceptions that leave a responder. *)
Inductive exn : Type :=
| TypeError
| KeyError
| UnicodeDecodeError
| RuntimeError
| RecursionError
| ValueError.

(** Evaluation of a Python expression: a value or a raised exception. *)
Inductive res (A : Type) : Type :=
| Val (a : A)
| Exc (e : exn).
Arguments Val {A} a.
Arguments Exc {A} e.

(** [bool(v)]: the test Python applies to [v] in [if v] and [x and v]. *)
Definition truthy (v : pyval) : bool :=
  match v with
  | PNone => false
  | PBool b => b
  | PInt n => negb (n =? 0)%Z
  | PFloat r => negb (String.eqb r "0.0" || String.eqb r "-0.0")
  | PStr s => negb (String.eqb s "")
  | PList l => match l with [] => false | _ :: _ => true end
  | PDict d => match d with [] => false | _ :: _ => true end
  end.

(** [needle in hay] on two strings: substring test. *)
Fixpoint contains (needle hay : string) : bool :=
  String.prefix needle hay
  || match hay with
     | EmptyString => false
     | String _ rest => contains needle rest
     end.

(** [d[k]] and [k in d] on the items of a dict. *)
Fixpoint dict_get (k : string) (d : list (string * pyval)) : option pyval :=
  match d with
  | [] => None
  | (k', v) :: rest => if String.eqb k k' then Some v else dict_get k rest
  end.

Definition is_str (k : string) (v : pyval) : bool :=
  match v with
  | PStr s => String.eqb k s
  | _ => false
  end.

(** [k in v] for a string [k]: key test on a dict, element test on a list,
    substring test on a string, [TypeError] on the values that are not
    iterable. *)
Definition py_in (k : string) (v : pyval) : res bool :=
  match v with
  | PDict d => Val (match dict_get k d with Some _ => true | None => false end)
  | PList l => Val (existsb (is_str k) l)
  | PStr s => Val (contains k s)
  | PNone | PBool _ | PInt _ | PFloat _ => Exc TypeError
  end.

(** [v[k]] for a string [k]: defined on dicts only (a list or a string
    indexed by a string raises [TypeError]). *)
Definition py_getitem (v : pyval) (k : string) : res pyval :=
  match v with
  | PDict d => match dict_get k d with
               | Some x => Val x
               | None => Exc KeyError
               end
  | _ => Exc TypeError
  end.

(** Decimal text of an integer: [str(n)], [repr(n)]. *)
Definition str_int (n : Z) : string := NilZero.string_of_int (Z.to_int n).

(** What [json.loads] does with a text: it returns a value, or raises
    [JSONDecodeError], the one exception the responders catch, or raises
    another exception ([RecursionError] on a text nested deeper than the
    interpreter allows, [ValueError] on an integer of more digits than it
    converts). *)
Inductive decoded : Type :=
| Decoded (v : pyval)
| JSONDecodeError
| Uncaught (e : exn).

(** What the module imports from the Python library:
    - [json_loads s] is [json.loads(s, object_pairs_hook=OrderedDict)];
    - [py_repr v] is [repr(v)] for a list or a dict, whose text depends on
      the quoting of strings and on the Python version, and which raises
      [RecursionError] on a value nested too deep;
    - [repr_strings l] is [repr] of a list of strings, which has no
      nesting to raise on. *)
Class Builtins : Type := {
  json_loads : string -> decoded;
  py_repr : pyval -> res string;
  repr_strings : list string -> string
}.

(** [str(v)]: the text of a scalar, and [repr] for a list or a dict. (The
    ints of a request are those that [json.loads] returned, which are
    within the number of digits that the interpreter converts to text,
    where it limits it.) *)
Definition py_str `{Builtins} (v : pyval) : res string :=
  match v with
  | PNone => Val "None"
  | PBool true => Val "True"
  | PBool false => Val "False"
  | PInt n => Val (str_int n)
  | PFloat r => Val r
  | PStr s => Val s
  | PList _ | PDict _ => py_repr v
  end.

(** [json.loads(str(v), object_pairs_hook=OrderedDict)]. *)
Definition loads_str `{Builtins} (v : pyval) : decoded :=
  match py_str v with
  | Val s => json_loads s
  | Exc e => Uncaught e
  end.

End Py.
Export Py.

(* ===================================================================== *)
(** * json.dumps                                                          *)
(* ===================================================================== *)

Module Json.

Definition dquote : ascii := ascii_of_nat 34.
Definition backslash : ascii := ascii_of_nat 92.

Definition hex_digit (n : nat) : ascii :=
  if Nat.ltb n 10 then ascii_of_nat (48 + n) else ascii_of_nat (87 + n).

(** One character of a string, as [json.dumps] writes it with the default
    [ensure_ascii=True]: the two-character escapes of [ESCAPE_DCT], the
    printable ASCII characters as they are, anything else as a [\u] escape
    of four hexadecimal digits. *)
Definition escape_char (c : ascii) : string :=
  let n := nat_of_ascii c in
  if Nat.eqb n 34 then String backslash (String dquote EmptyString)
  else if Nat.eqb n 92 then String backslash (String backslash EmptyString)
  else if Nat.eqb n 8 then "\b"
  else if Nat.eqb n 12 then "\f"
  else if Nat.eqb n 10 then "\n"
  else if Nat.eqb n 13 then "\r"
  else if Nat.eqb n 9 then "\t"
  else if Nat.leb 32 n && Nat.leb n 126 then String c EmptyString
  else "\u00" +:+ String (hex_digit (n / 16)) (String (hex_digit (n mod 16)) EmptyString).

Fixpoint escape (s : string) : string :=
  match s with
  | EmptyString => EmptyString
  | String c rest => escape_char c +:+ escape rest
  end.

(** A string between double quotes. *)
Definition quoted (s : string) : string :=
  String dquote (escape s +:+ String dquote EmptyString).

(** A float: its [repr], but for the three spellings JSON texts use. *)
Definition dumps_float (r : string) : string :=
  if String.eqb r "nan" then "NaN"
  else if String.eqb r "inf" then "Infinity"
  else if String.eqb r "-inf" then "-Infinity"
  else r.

(** [json.dumps(v, separators=(',', ':'))]: items are separated by a comma
    and a key from its value by a colon, with nothing around them. *)
Fixpoint json_dumps (v : pyval) : string :=
  match v with
  | PNone => "null"
  | PBool true => "true"
  | PBool false => "false"
  | PInt n => str_int n
  | PFloat r => dumps_float r
  | PStr s => quoted s
  | PList l => "[" +:+ String.concat "," (map json_dumps l) +:+ "]"
  | PDict d =>
      "{" +:+ String.concat ","
                (map (fun kv => quoted (fst kv) +:+ ":" +:+ json_dumps (snd kv)) d)
          +:+ "}"
  end.

(** Literals of this file write a JSON text with apostrophes where the
    text has double quotes: [lit] puts the double quotes back. *)
Fixpoint lit (s : string) : string :=
  match s with
  | EmptyString => EmptyString
  | String c rest =>
      String (if Ascii.eqb c (ascii_of_nat 39) then dquote else c) (lit rest)
  end.

End Json.
Export Json.

(* ===================================================================== *)
(** * Requests, responses and the engine                                  *)
(* ===================================================================== *)

Module Falcon.

(** The status lines the module uses ([falcon.HTTP_200], ...). *)
Inductive http_status : Type := HTTP_200 | HTTP_204 | HTTP_400 | HTTP_405.

Definition status_line (s : http_status) : string :=
  match s with
  | HTTP_200 => "200 OK"
  | HTTP_204 => "204 No Content"
  | HTTP_400 => "400 Bad Request"
  | HTTP_405 => "405 Method Not Allowed"
  end.

Definition status_code (s : http_status) : nat :=
  match s with
  | HTTP_200 => 200
  | HTTP_204 => 204
  | HTTP_400 => 400
  | HTTP_405 => 405
  end.

(** A value of [req.params]: a string, or the list of the values of a
    parameter that the query string repeats. With
    [keep_blank_qs_values = True] a parameter without value is kept, as
    the empty string; with [auto_parse_form_urlencoded = True] the fields
    of a form-encoded POST body are in [req.params] as well. *)
Inductive param : Type :=
| One (s : string)
| Many (l : list string).

Definition param_val (v : param) : pyval :=
  match v with
  | One s => PStr s
  | Many l => PList (map PStr l)
  end.

(** What a responder reads of a request.
    [stream] is [req.stream.read().decode('utf-8')]: the text of the body,
    or [None] when the bytes are not UTF-8 ([UnicodeDecodeError]). *)
Record request : Type := Request {
  params : gmap string param;
  content_type : option string;
  content_length : option N;
  stream : option string
}.

(** What a responder writes of a response. *)
Record response : Type := Response {
  status : http_status;
  body : option string;
  headers : gmap string string
}.

(** The response object a responder receives. *)
Definition fresh_response : response :=
  {| status := HTTP_200; body := None; headers := ∅ |}.

(** [resp.status = st; resp.body = b]. *)
Definition reply (resp : response) (st : http_status) (b : string) : response :=
  {| status := st; body := Some b; headers := headers resp |}.

Definition set_status (resp : response) (st : http_status) : response :=
  {| status := st; body := body resp; headers := headers resp |}.

(** [resp.set_header(name, value)]. *)
Definition set_header (name value : string) (resp : response) : response :=
  {| status := status resp; body := body resp;
     headers := <[name := value]> (headers resp) |}.

(** The HTTP methods [GraphQLResource] has a responder for. *)
Inductive http_method : Type := GET | POST | OPTIONS | HEAD | PUT | PATCH | DELETE.

End Falcon.
Export Falcon.

Module Engine.

(** An error of [result.errors]; [str(e)] is its message. The engine may
    attach the places of the document the error is about. *)
Record GraphQLError : Type := {
  message : string;
  locations : list (nat * nat)
}.

Definition str_error (e : GraphQLError) : string := message e.

(** What [schema.execute] returns: [data] ([PNone] for [None]) and
    [errors] ([None] or a list). *)
Record ExecutionResult : Type := {
  data : pyval;
  errors : option (list GraphQLError)
}.

(** The arguments of one call of [schema.execute]: the query, the keyword
    argument [variable_values], and the keyword argument [operation_name]
    when the call passes it. *)
Record OperationRequest : Type := {
  op_query : string;
  op_variables : pyval;
  op_name : option string
}.

(** The schema the module builds with Graphene, as a function. *)
Definition engine : Type := OperationRequest -> ExecutionResult.

End Engine.
Export Engine.

(* ===================================================================== *)
(** * GraphQLResource                                                     *)
(* ===================================================================== *)

(** A responder runs until it replies (sets the status and the body of
    the response and returns), raises, or goes on with a value. *)
Inductive flow (A : Type) : Type :=
| Go (a : A)
| Reply (r : response)
| Throw (e : exn).
Arguments Go {A} a.
Arguments Reply {A} r.
Arguments Throw {A} e.

#[global] Instance flow_bind : MBind flow := fun A B k m =>
  match m with
  | Go a => k a
  | Reply r => Reply r
  | Throw e => Throw e
  end.

Definition eval {A : Type} (r : res A) : flow A :=
  match r with
  | Val a => Go a
  | Exc e => Throw e
  end.

(** How a responder ends: it returned, leaving the response as shown, or
    an exception left it. *)
Inductive outcome : Type :=
| Responded (r : response)
| Raised (e : exn).

(** A run of a responder: how it ended, and the calls of [schema.execute]
    it made, in order. *)
Record run : Type := {
  out : outcome;
  calls : list OperationRequest
}.

(** [json.dumps({'errors': [{'message': msg}]}, separators=(',', ':'))]. *)
Definition errors_body (msg : string) : string :=
  json_dumps (PDict [("errors", PList [PDict [("message", PStr msg)]])]).

(** [resp.status = falcon.HTTP_400] with the body above, then [return]. *)
Definition bad_request {A : Type} (resp : response) (msg : string) : flow A :=
  Reply (reply resp HTTP_400 (errors_body msg)).

(** The value of [req.params[k]] when the test
    [k in req.params and req.params[k]] holds. *)
Definition given (req : request) (k : string) : option param :=
  match params req !! k with
  | Some v => if truthy (param_val v) then Some v else None
  | None => None
  end.

(** [str(v)] for a value of [req.params]: the string itself, or [repr] of
    the list of strings. *)
Definition str_param `{Builtins} (v : param) : string :=
  match v with
  | One s => s
  | Many l => repr_strings l
  end.

(** [json.loads(text, object_pairs_hook=OrderedDict)] under
    [except json.decoder.JSONDecodeError], whose handler answers 400 with
    the message [msg]: any other exception leaves the responder. *)
Definition decode `{Builtins} (resp : response) (text msg : string) : flow pyval :=
  match json_loads text with
  | Decoded j => Go j
  | JSONDecodeError => bad_request resp msg
  | Uncaught e => Throw e
  end.

(** [req.content_type and ct in req.content_type]. *)
Definition content_type_has (ct : string) (req : request) : bool :=
  match content_type req with
  | Some t => negb (String.eqb t "") && contains ct t
  | None => false
  end.

(** [req.content_length in (None, 0)]. *)
Definition no_content (req : request) : bool :=
  match content_length req with
  | None => true
  | Some n => N.eqb n 0
  end.

(** Lines 127-141 and 321-335: the response to an execution result. *)
Definition respond (result : ExecutionResult) (resp : response) : outcome :=
  if truthy (data result) then
    let data_ret := PDict [("data", data result)] in
    Responded (reply resp HTTP_200 (json_dumps data_ret))
  else
    match errors result with
    | Some (e :: es) =>
        let err_msgs :=
          map (fun i => PDict [("message", PStr (str_error i))]) (e :: es) in
        Responded (reply resp HTTP_400 (json_dumps (PDict [("errors", PList err_msgs)])))
    | Some [] | None => Raised RuntimeError
    end.

Section Resource.

Context `{Builtins}.
Variable schema : engine.

(** Lines 117-125 and 311-319: [schema.execute] is called with
    [operation_name] only when there is one; then the response is built.
    (What the engine prints meanwhile goes to [os.devnull]; the output
    stream is not part of the model.) *)
Definition execute (query : string) (variables : pyval)
    (operation_name : option string) (resp : response) : run :=
  let call := {| op_query := query; op_variables := variables;
                 op_name := operation_name |} in
  {| out := respond (schema call) resp; calls := [call] |}.

(** The end of [on_get] and of [on_post]: nothing more is done once the
    responder has replied or raised; otherwise the engine is called. *)
Definition finish (m : flow OperationRequest) (resp : response) : run :=
  match m with
  | Go c => execute (op_query c) (op_variables c) (op_name c) resp
  | Reply r => {| out := Responded r; calls := [] |}
  | Throw e => {| out := Raised e; calls := [] |}
  end.

(** Lines 61-64. *)
Definition on_options (req : request) (resp : response) : run :=
  {| out := Responded (set_status resp HTTP_204); calls := [] |}.

(** Lines 66-68: the response is left as it came. *)
Definition on_head (req : request) (resp : response) : run :=
  {| out := Responded resp; calls := [] |}.

(** Lines 87-115: the query, the variables and the operation name of a
    GET request. *)
Definition on_get_request (req : request) (resp : response) : flow OperationRequest :=
  query ← match given req "query" with
           | Some v => Go (str_param v)
           | None => bad_request resp "Must provide query string."
           end;
  variables ← match given req "variables" with
               | Some v => decode resp (str_param v) "Variables are invalid JSON."
               | None => Go (PStr "")
               end;
  let operation_name :=
    match given req "operationName" with
    | Some v => Some (str_param v)
    | None => None
    end in
  Go {| op_query := query; op_variables := variables; op_name := operation_name |}.

Definition on_get (req : request) (resp : response) : run :=
  finish (on_get_request req resp) resp.

(** Lines 191-214, [parse url parameters in the request first]. *)
Definition url_query (req : request) : option string :=
  match given req "query" with
  | Some v => Some (str_param v)
  | None => None
  end.

Definition url_variables (req : request) (resp : response) : flow pyval :=
  match given req "variables" with
  | Some v => decode resp (str_param v) "Variables are invalid JSON."
  | None => Go PNone
  end.

Definition url_operation_name (req : request) : option string :=
  match given req "operationName" with
  | Some v => Some (str_param v)
  | None => None
  end.

(** Lines 242-252, [build the query string]: the query of the URL, or
    else the one of the decoded body [post_data]. *)
Definition body_query (resp : response) (query : option string) (post_data : pyval)
    : flow string :=
  match query with
  | Some q => Go q
  | None =>
      if truthy post_data then
        has ← eval (py_in "query" post_data);
        if has : bool then
          v ← eval (py_getitem post_data "query");
          eval (py_str v)
        else bad_request resp "Must provide query string."
      else bad_request resp "Must provide query string."
  end.

(** Lines 254-273, [build the variables string]: the variables of the
    URL unless they are [None], or else those of the body, decoded, or
    else the empty string. *)
Definition body_variables (resp : response) (variables : pyval) (post_data : pyval)
    : flow pyval :=
  match variables with
  | PNone =>
      if truthy post_data then
        has ← eval (py_in "variables" post_data);
        if has : bool then
          v ← eval (py_getitem post_data "variables");
          if truthy v then
            json_str ← eval (py_str v);
            decode resp json_str "Variables are invalid JSON."
          else Go (PStr "")
        else Go (PStr "")
      else Go (PStr "")
  | _ => Go variables
  end.

(** Lines 275-279, [build the operationName string]. *)
Definition body_operation_name (operation_name : option string) (post_data : pyval)
    : flow (option string) :=
  match operation_name with
  | Some o => Go (Some o)
  | None =>
      has ← eval (py_in "operationName" post_data);
      if has : bool then
        v ← eval (py_getitem post_data "operationName");
        if truthy v then
          name ← eval (py_str v);
          Go (Some name)
        else Go None
      else Go None
  end.

(** Lines 216-279: the body of an [application/json] request, after the
    URL parameters gave [query], [variables] and [operation_name]. *)
Definition json_body (req : request) (resp : response) (query : option string)
    (variables : pyval) (operation_name : option string) : flow OperationRequest :=
  if no_content req then bad_request resp "POST body sent invalid JSON."
  else
    raw_json ← match stream req with
                | Some text => Go text
                | None => Throw UnicodeDecodeError
                end;
    post_data ← decode resp raw_json "POST body sent invalid JSON.";
    query ← body_query resp query post_data;
    variables ← body_variables resp variables post_data;
    operation_name ← body_operation_name operation_name post_data;
    Go {| op_query := query; op_variables := variables; op_name := operation_name |}.

(** Lines 281-296: the body of an [application/graphql] request. *)
Definition graphql_body (req : request) (resp : response) (query : option string)
    (variables : pyval) (operation_name : option string) : flow OperationRequest :=
  post_data ← match stream req with
               | Some text => Go text
               | None => Throw UnicodeDecodeError
               end;
  query ← match query with
           | Some q => Go q
           | None =>
               if truthy (PStr post_data) then eval (py_str (PStr post_data))
               else bad_request resp "Must provide query string."
           end;
  Go {| op_query := query; op_variables := variables; op_name := operation_name |}.

(** Lines 191-309: the query, the variables and the operation name of a
    POST request. *)
Definition on_post_request (req : request) (resp : response) : flow OperationRequest :=
  let query := url_query req in
  variables ← url_variables req resp;
  let operation_name := url_operation_name req in
  if content_type_has "application/json" req then
    json_body req resp query variables operation_name
  else if content_type_has "application/graphql" req then
    graphql_body req resp query variables operation_name
  else
    match query with
    | None => bad_request resp "Must provide query string."
    | Some q =>
        Go {| op_query := q; op_variables := variables; op_name := operation_name |}
    end.

Definition on_post (req : request) (resp : response) : run :=
  finish (on_post_request req resp) resp.

(** Lines 337-362: [on_put], [on_patch] and [on_delete] have the same body. *)
Definition not_allowed (resp : response) : run :=
  {| out := Responded
              (reply resp HTTP_405
                 (errors_body "GraphQL only supports GET and POST requests."));
     calls := [] |}.

Definition on_put (req : request) (resp : response) : run := not_allowed resp.
Definition on_patch (req : request) (resp : response) : run := not_allowed resp.
Definition on_delete (req : request) (resp : response) : run := not_allowed resp.

(** Lines 52-54. *)
Definition set_graphql_allow_header (req : request) (resp : response) : response :=
  set_header "Allow" "GET, POST, OPTIONS" resp.

(** [falcon.after(action)] on a class wraps each responder: the action
    runs once the responder has returned, not when it raised. *)
Definition after (action : request -> response -> response)
    (responder : request -> response -> run) (req : request) (resp : response) : run :=
  let r := responder req resp in
  match out r with
  | Responded resp' => {| out := Responded (action req resp'); calls := calls r |}
  | Raised e => r
  end.

(** The responder of [GraphQLResource] for a method, as decorated. *)
Definition responder (m : http_method) : request -> response -> run :=
  after set_graphql_allow_header
    match m with
    | GET => on_get
    | POST => on_post
    | OPTIONS => on_options
    | HEAD => on_head
    | PUT => on_put
    | PATCH => on_patch
    | DELETE => on_delete
    end.

(** A request to [/graphql]: the responder of its method, on a fresh
    response. *)
Definition handle (m : http_method) (req : request) : run :=
  responder m req fresh_response.

End Resource.

(* ===================================================================== *)
(** * StaticGraphiQLResource                                              *)
(* ===================================================================== *)

Module Static.

(** What [StaticGraphiQLResource.on_get] writes of a response:
    [resp.content_type], [resp.status] and [resp.stream] (the file it
    opened, here its contents). *)
Record static_response : Type := {
  served_type : option string;
  served_status : http_status;
  served_stream : option string
}.

(** The files [open(path, 'rb')] can open, by path; on any other path it
    raises an [OSError] ([FileNotFoundError], [IsADirectoryError], ...). *)
Inductive served : Type :=
| Served (r : static_response)
| OSError.

(** Lines 367-378. The content type and the status are set first, the
    file is opened last: when [open] raises, the exception leaves the
    responder. *)
Definition on_get (files : gmap string string) (resp : static_response)
    (static_file : option string) : served :=
  let name :=
    match static_file with
    | None => "graphiql.html"
    | Some f => f
    end in
  let content_type :=
    match static_file with
    | None => "text/html; charset=UTF-8"
    | Some f =>
        if String.eqb f "graphiql.css" then "text/css; charset=UTF-8"
        else "application/javascript; charset=UTF-8"
    end in
  match files !! ("graphiql/" +:+ name) with
  | Some contents =>
      Served {| served_type := Some content_type; served_status := HTTP_200;
                served_stream := Some contents |}
  | None => OSError
  end.

End Static.

(* ===================================================================== *)
(** * The resolvers of Query                                              *)
(* ===================================================================== *)

Module Query.

(** Lines 37-41. *)
Definition resolve_hello : string := "Hello world!".
Definition resolve_extra : string := "Extra!".

(** The arguments of [rollDice]: [dice] is there ([NonNull]), [sides] may
    be missing from [args]. *)
Record dice_args : Type := {
  dice : Z;
  sides : option Z
}.

(** What a resolver gives: a value, or the [ValueError] of [randrange]. *)
Inductive rolled (A : Type) : Type :=
| Rolled (a : A)
| ValueError.
Arguments Rolled {A} a.
Arguments ValueError {A}.

Section Roll.

(** The random generator: its state, and [draw n s], a number below [n]
    drawn in state [s] with the state that follows. *)
Variable rng : Type.
Variable draw : Z -> rng -> Z * rng.

(** [random.randrange(start, stop)]: [ValueError] on an empty range,
    otherwise [start] plus a number below [stop - start]. *)
Definition randrange (start stop : Z) (s : rng) : rolled Z * rng :=
  if (stop <=? start)%Z then (ValueError, s)
  else let '(r, s') := draw (stop - start) s in (Rolled (start + r)%Z, s').

(** [[randrange(1, stop) for i in range(n)]]. *)
Fixpoint rolls (n : nat) (stop : Z) (s : rng) : rolled (list Z) * rng :=
  match n with
  | O => (Rolled [], s)
  | S n' =>
      match randrange 1 stop s with
      | (Rolled x, s') =>
          match rolls n' stop s' with
          | (Rolled xs, s'') => (Rolled (x :: xs), s'')
          | (ValueError, s'') => (ValueError, s'')
          end
      | (ValueError, s') => (ValueError, s')
      end
  end.

(** Lines 43-45: [range(dice)] is empty for a [dice] that is not
    positive; [args.get('sides', 6)] is 6 when [sides] is missing. *)
Definition resolve_roll_dice (args : dice_args) (s : rng) : rolled (list Z) * rng :=
  let num_dice := Z.to_nat (dice args) in
  rolls num_dice (default 6%Z (sides args) + 1)%Z s.

End Roll.

(** A generator for closed examples: the state is a counter, and a draw
    below [n] is the counter modulo [n]. *)
Definition counter_draw (n : Z) (s : nat) : Z * nat := ((Z.of_nat s) mod n, S s)%Z.

End Query.


(* ===================================================================== *)
(** * Reference instances                                                 *)
(* ===================================================================== *)

(** Instances of the parameters, for closed examples: a decoder of JSON
    texts, a [repr], and a stand-in for the schema. The theorems do not
    depend on them. *)
Module Ref.

Definition is_ws (c : ascii) : bool :=
  let n := nat_of_ascii c in
  Nat.eqb n 32 || Nat.eqb n 9 || Nat.eqb n 10 || Nat.eqb n 13.

Fixpoint skip_ws (s : string) : string :=
  match s with
  | String c rest => if is_ws c then skip_ws rest else s
  | EmptyString => EmptyString
  end.

(** [s[n:]]. *)
Fixpoint drop_chars (n : nat) (s : string) : string :=
  match n, s with
  | S n', String _ rest => drop_chars n' rest
  | _, _ => s
  end.

Definition is_digit (c : ascii) : bool :=
  let n := nat_of_ascii c in Nat.leb 48 n && Nat.leb n 57.

(** The digits [s] starts with, as a number after [acc], and the rest. *)
Fixpoint digits (acc : Z) (s : string) : Z * string :=
  match s with
  | String c rest =>
      if is_digit c then digits (10 * acc + Z.of_nat (nat_of_ascii c - 48)) rest
      else (acc, s)
  | EmptyString => (acc, s)
  end.

Definition starts_with_digit (s : string) : bool :=
  match s with
  | String c _ => is_digit c
  | EmptyString => false
  end.

(** [s] goes on with a fraction or an exponent: the number is a float. *)
Definition float_tail (s : string) : bool :=
  match s with
  | String "." rest => starts_with_digit rest
  | String "e" rest | String "E" rest =>
      match rest with
      | String "+" r | String "-" r => starts_with_digit r
      | _ => starts_with_digit rest
      end
  | _ => false
  end.

(** An integer: [0], or a digit other than [0] and more digits. *)
Definition natural (s : string) : option (Z * string) :=
  match s with
  | String "0" rest => Some (0%Z, rest)
  | String c _ => if is_digit c then Some (digits 0 s) else None
  | EmptyString => None
  end.

Definition number (s : string) : option (pyval * string) :=
  match s with
  | String "-" rest =>
      '(n, r) ← natural rest;
      if float_tail r then None else Some (PInt (- n), r)
  | _ =>
      '(n, r) ← natural s;
      if float_tail r then None else Some (PInt n, r)
  end.

(** A string, from after its opening quote: the text and what follows the
    closing quote. *)
Fixpoint scan_string (s : string) : option (string * string) :=
  match s with
  | EmptyString => None
  | String c rest =>
      if Ascii.eqb c dquote then Some (EmptyString, rest)
      else if Ascii.eqb c backslash then
        match rest with
        | String e rest' =>
            let unescaped :=
              if Ascii.eqb e dquote then Some dquote
              else if Ascii.eqb e backslash then Some backslash
              else if Ascii.eqb e "/" then Some "/"%char
              else if Ascii.eqb e "b" then Some (ascii_of_nat 8)
              else if Ascii.eqb e "f" then Some (ascii_of_nat 12)
              else if Ascii.eqb e "n" then Some (ascii_of_nat 10)
              else if Ascii.eqb e "r" then Some (ascii_of_nat 13)
              else if Ascii.eqb e "t" then Some (ascii_of_nat 9)
              else None in
            ch ← unescaped;
            '(text, r) ← scan_string rest';
            Some (String ch text, r)
        | EmptyString => None
        end
      else if Nat.ltb (nat_of_ascii c) 32 then None
      else
        '(text, r) ← scan_string rest;
        Some (String c text, r)
  end.

(** [OrderedDict(pairs)]: a key met again keeps its place and takes the
    new value. *)
Fixpoint odict_set (k : string) (v : pyval) (d : list (string * pyval))
    : list (string * pyval) :=
  match d with
  | [] => [(k, v)]
  | (k', v') :: rest =>
      if String.eqb k k' then (k, v) :: rest else (k', v') :: odict_set k v rest
  end.

Definition odict (pairs : list (string * pyval)) : list (string * pyval) :=
  fold_left (fun d kv => odict_set (fst kv) (snd kv) d) pairs [].

(** What the scanner makes of a text: a result and the rest of the text,
    a text that is not JSON, or a nesting deeper than the interpreter
    allows. *)
Inductive scan (A : Type) : Type :=
| Scanned (a : A) (rest : string)
| Malformed
| TooDeep.
Arguments Scanned {A} a rest.
Arguments Malformed {A}.
Arguments TooDeep {A}.

Definition scanned {A : Type} (o : option (A * string)) : scan A :=
  match o with
  | Some (a, rest) => Scanned a rest
  | None => Malformed
  end.

(** The nesting of arrays and objects at which the scanner raises
    [RecursionError]: [sys.getrecursionlimit()], which is 1000 unless it
    is set (what is left of it at the call depends on the server). *)
Definition recursion_limit : nat := 1000.

(** The scanner of [json.decoder], with a bound on the number of steps
    and [depth] levels of nesting left: [value] reads one value at the head
    of [s]; [members] and [items] read what follows the opening brace and
    bracket, [acc] holding what was read, last first. *)
Fixpoint value (fuel depth : nat) (s : string) : scan pyval :=
  match fuel with
  | O => Malformed
  | S fuel =>
      match s with
      | EmptyString => Malformed
      | String c rest =>
          if Ascii.eqb c dquote then
            scanned ('(text, r) ← scan_string rest; Some (PStr text, r))
          else if Ascii.eqb c "{" then
            match depth with
            | O => TooDeep
            | S depth =>
                match skip_ws rest with
                | String "}" r => Scanned (PDict []) r
                | s' => members fuel depth s' []
                end
            end
          else if Ascii.eqb c "[" then
            match depth with
            | O => TooDeep
            | S depth =>
                match skip_ws rest with
                | String "]" r => Scanned (PList []) r
                | s' => items fuel depth s' []
                end
            end
          else if String.prefix "null" s then Scanned PNone (drop_chars 4 s)
          else if String.prefix "true" s then Scanned (PBool true) (drop_chars 4 s)
          else if String.prefix "false" s then Scanned (PBool false) (drop_chars 5 s)
          else scanned (number s)
      end
  end
with members (fuel depth : nat) (s : string) (acc : list (string * pyval))
    : scan pyval :=
  match fuel with
  | O => Malformed
  | S fuel =>
      match s with
      | String c rest =>
          if Ascii.eqb c dquote then
            match scan_string rest with
            | Some (key, r) =>
                match skip_ws r with
                | String ":" r1 =>
                    match value fuel depth (skip_ws r1) with
                    | Scanned v r2 =>
                        match skip_ws r2 with
                        | String "}" r3 =>
                            Scanned (PDict (odict (rev ((key, v) :: acc)))) r3
                        | String "," r3 =>
                            members fuel depth (skip_ws r3) ((key, v) :: acc)
                        | _ => Malformed
                        end
                    | Malformed => Malformed
                    | TooDeep => TooDeep
                    end
                | _ => Malformed
                end
            | None => Malformed
            end
          else Malformed
      | EmptyString => Malformed
      end
  end
with items (fuel depth : nat) (s : string) (acc : list pyval) : scan pyval :=
  match fuel with
  | O => Malformed
  | S fuel =>
      match value fuel depth s with
      | Scanned v r =>
          match skip_ws r with
          | String "]" r1 => Scanned (PList (rev (v :: acc))) r1
          | String "," r1 => items fuel depth (skip_ws r1) (v :: acc)
          | _ => Malformed
          end
      | Malformed => Malformed
      | TooDeep => TooDeep
      end
  end.

(** [json.loads] on the texts without a float, a [\u] escape, [NaN] or
    [Infinity]; a text that has one of them is outside this decoder (it
    answers [JSONDecodeError] there, which [json.loads] does not). *)
Definition loads (s : string) : decoded :=
  match value (2 * String.length s + 2) recursion_limit (skip_ws s) with
  | Scanned v rest =>
      match skip_ws rest with
      | EmptyString => Decoded v
      | String _ _ => JSONDecodeError
      end
  | Malformed => JSONDecodeError
  | TooDeep => Uncaught RecursionError
  end.

(** The texts of a list, when each is there. *)
Fixpoint all_val {A : Type} (l : list (res A)) : res (list A) :=
  match l with
  | [] => Val []
  | Val a :: rest =>
      match all_val rest with
      | Val l' => Val (a :: l')
      | Exc e => Exc e
      end
  | Exc e :: _ => Exc e
  end.

(** The nesting of lists and dicts at which [repr] raises
    [RecursionError]: a level of [repr] takes several of the frames that
    [sys.getrecursionlimit()] counts. *)
Definition repr_limit : nat := 300.

(** [repr] as Python before 3.12 prints it, for the strings that need no
    escape and contain no quote, with [depth] levels of nesting left. *)
Fixpoint repr (depth : nat) (v : pyval) : res string :=
  match v with
  | PNone => Val "None"
  | PBool true => Val "True"
  | PBool false => Val "False"
  | PInt n => Val (str_int n)
  | PFloat r => Val r
  | PStr s => Val ("'" +:+ s +:+ "'")
  | PList l =>
      match depth with
      | O => Exc RecursionError
      | S depth =>
          match all_val (map (repr depth) l) with
          | Val texts => Val ("[" +:+ String.concat ", " texts +:+ "]")
          | Exc e => Exc e
          end
      end
  | PDict [] => Val "OrderedDict()"
  | PDict d =>
      match depth with
      | O => Exc RecursionError
      | S depth =>
          match all_val (map (fun kv => repr depth (snd kv)) d) with
          | Val texts =>
              Val ("OrderedDict(["
                   +:+ String.concat ", "
                         (map (fun kt => "('" +:+ fst kt +:+ "', " +:+ snd kt +:+ ")")
                              (combine (map fst d) texts))
                   +:+ "])")
          | Exc e => Exc e
          end
      end
  end.

(** [repr] of a list of strings. *)
Definition repr_of_strings (l : list string) : string :=
  "[" +:+ String.concat ", " (map (fun s => "'" +:+ s +:+ "'") l) +:+ "]".

#[global] Instance builtins : Builtins :=
  {| json_loads := loads; py_repr := repr repr_limit; repr_strings := repr_of_strings |}.

(** A stand-in for the schema of the module on the query of its field
    [hello]; any other query gets one error and no data. *)
Definition hello_schema : engine := fun call =>
  if String.eqb (op_query call) "{hello}" then
    {| data := PDict [("hello", PStr "Hello world!")]; errors := None |}
  else
    {| data := PNone;
       errors := Some [ {| message := "Cannot query this document.";
                           locations := [(1, 1)] |} ] |}.

End Ref.

(** Requests and engine results of the closed examples. *)
Module Sample.

Definition url (ps : list (string * string)) : gmap string param :=
  list_to_map (map (fun kv => (fst kv, One (snd kv))) ps).

(** A GET request: URL parameters, no body. *)
Definition get (ps : list (string * string)) : request :=
  {| params := url ps; content_type := None; content_length := None;
     stream := Some "" |}.

(** A POST request of the given content type, with the length of its body
    as content length. *)
Definition post (ps : list (string * string)) (ct body : string) : request :=
  {| params := url ps; content_type := Some ct;
     content_length := Some (N.of_nat (String.length body));
     stream := Some body |}.

Definition post_json (ps : list (string * string)) (body : string) : request :=
  post ps "application/json" body.

Definition post_graphql (ps : list (string * string)) (body : string) : request :=
  post ps "application/graphql" body.

(** GET [/graphql?query={hello}] and GET [/graphql]. *)
Definition get_hello : request := get [("query", "{hello}")].
Definition get_nothing : request := get [].


(** POST [/graphql?query={q1}] with the JSON body [{"query":"{q2}"}]. *)
Definition url_q1_body_q2 : request :=
  post_json [("query", "{q1}")] (lit "{'query':'{q2}'}").

(** POST [/graphql?query={a}&variables=null] with the JSON body
    [{"variables":"{\"x\":1}"}]. *)
Definition url_null_variables : request :=
  post_json [("query", "{a}"); ("variables", "null")]
    (lit "{'variables':'{\'x\':1}'}").



(** POST with the JSON bodies: none, [{], [{"query":""}], [{"query":42}],
    [{"query":42,"operationName":7}], [{"query":42,"variables":"{"}],
    [{"query":"{hello}","variables":"{"}]. *)
Definition no_body : request := post_json [] "".
Definition empty_query : request := post_json [] (lit "{'query':''}").
Definition number_query : request := post_json [] (lit "{'query':42}").
Definition number_query_and_name : request :=
  post_json [] (lit "{'query':42,'operationName':7}").
Definition number_query_bad_variables : request :=
  post_json [] (lit "{'query':42,'variables':'{'}").

(** POST with the query as body: [{hello}], and nothing. *)
Definition graphql_hello : request := post_graphql [] "{hello}".
Definition graphql_nothing : request := post_graphql [] "".

(** POST [/graphql?variables={"x":1}&operationName=Hello] with the query
    [{hello}] as body. *)
Definition graphql_with_url : request :=
  post_graphql [("variables", lit "{'x':1}"); ("operationName", "Hello")] "{hello}".

(** POST with a GraphQL body of two bytes that are not UTF-8, and no URL
    parameter. *)
Definition graphql_not_utf8 : request :=
  {| params := ∅; content_type := Some "application/graphql";
     content_length := Some 2%N; stream := None |}.

(** A text of [n] opening brackets, and the object
    [{"a":{"a": ... {} ... }}] of [n] levels. *)
Definition brackets (n : nat) : string := String.concat "" (repeat "[" n).
Fixpoint nest (n : nat) : string :=
  match n with
  | O => "{}"
  | S k => lit "{'a':" +:+ nest k +:+ "}"
  end.

(** GET [/graphql?query={hello}&variables=[[[...] with 1500 brackets. *)
Definition get_deep_variables : request :=
  get [("query", "{hello}"); ("variables", brackets 1500)].

(** POST with the JSON body [{"query": v}], where [v] is an object of
    400 levels. *)
Definition deep_query : request :=
  post_json [] (lit "{'query':" +:+ nest 400 +:+ "}").

(** An engine that returns neither data nor errors, and one that returns
    data with no field in it (as for a selection that is all skipped). *)
Definition silent_schema : engine := fun _ => {| data := PNone; errors := None |}.
Definition skipped_schema : engine := fun _ => {| data := PDict []; errors := None |}.

End Sample.

(** More requests, and the files of a dashboard, for closed examples. *)
Module Cases.

(** POST with the JSON bodies [5], [null] (with a query in the URL) and
    the string [my query]. *)
Definition number_body : request := Sample.post_json [] "5".
Definition null_body_with_query : request :=
  Sample.post_json [("query", "{hello}")] "null".
Definition string_body : request := Sample.post_json [] (lit "'my query'").

(** POST of a form whose fields are a query and variables. *)
Definition form : request :=
  Sample.post [("query", "{hello}"); ("variables", "{}")]
    "application/x-www-form-urlencoded" "".

(** POST [/graphql?query={hello}] with a GraphQL body that is not UTF-8. *)
Definition not_utf8 : request :=
  {| params := Sample.url [("query", "{hello}")];
     content_type := Some "application/graphql";
     content_length := Some 2%N;
     stream := None |}.

Definition dashboard : gmap string string :=
  {[ "graphiql/graphiql.html" := "<html></html>";
     "graphiql/graphiql.css" := "body {}";
     "graphiql/graphiql.js" := "window.GraphiQL = 1" ]}.

Definition no_response : Static.static_response :=
  {| Static.served_type := None; Static.served_status := HTTP_200;
     Static.served_stream := None |}.

End Cases.


(* ===================================================================== *)
(** * Vocabulary of the statements                                        *)
(* ===================================================================== *)

(** The run ended with a response of this status and this body. *)
Definition answers (r : run) (st : http_status) (b : string) : Prop :=
  ∃ resp, out r = Responded resp ∧ status resp = st ∧ body resp = Some b.

(** The parameter [k] is not in the URL, or is there with no value. *)
Definition absent_or_empty (req : request) (k : string) : Prop :=
  params req !! k = None ∨ params req !! k = Some (One "").

(** The same request with another body and other headers about it. *)
Definition with_body (req : request) (ct : option string) (cl : option N)
    (st : option string) : request :=
  {| params := params req; content_type := ct; content_length := cl; stream := st |}.

(** The URL parameter [variables], when given with a value, is valid
    JSON: [json.loads] returns a value for it. *)
Definition url_variables_decode `{Builtins} (req : request) : Prop :=
  ∀ v, given req "variables" = Some v → ∃ j, json_loads (str_param v) = Decoded j.

(** [json.loads] raises [e], an exception other than [JSONDecodeError],
    which no handler of the responders catches, on the variables that the
    URL gives. *)
Definition url_raises `{Builtins} (req : request) (e : exn) : Prop :=
  ∃ v, given req "variables" = Some v ∧ json_loads (str_param v) = Uncaught e.

(** [json.loads] or [str] raises [e], an exception that no handler of the
    responders catches, on the body of the request: on its text, or, when
    the text decodes to an object, on the field [query], on a truthy field
    [variables] or on a truthy field [operationName]. *)
Definition body_raises `{Builtins} (req : request) (e : exn) : Prop :=
  ∃ text, stream req = Some text
    ∧ (json_loads text = Uncaught e
       ∨ ∃ d w, json_loads text = Decoded (PDict d)
           ∧ (dict_get "query" d = Some w ∧ py_str w = Exc e
              ∨ dict_get "variables" d = Some w ∧ truthy w = true
                ∧ loads_str w = Uncaught e
              ∨ dict_get "operationName" d = Some w ∧ truthy w = true
                ∧ py_str w = Exc e)).

(** A value that is neither a string, nor a list, nor a dict: [k in v]
    raises [TypeError] on it. *)
Definition scalar (v : pyval) : Prop :=
  match v with
  | PNone | PBool _ | PInt _ | PFloat _ => True
  | PStr _ | PList _ | PDict _ => False
  end.

(** A value that is a dict. *)
Definition is_dict (v : pyval) : Prop := ∃ d, v = PDict d.

(** The result has neither data (it is falsy) nor errors. *)
Definition empty_result (r : ExecutionResult) : Prop :=
  truthy (data r) = false ∧ (errors r = None ∨ errors r = Some []).

(** A reply while a request is read is one of three rejections. *)
Definition rejection (resp r : response) : Prop :=
  r = reply resp HTTP_400 (errors_body "Must provide query string.")
  ∨ r = reply resp HTTP_400 (errors_body "Variables are invalid JSON.")
  ∨ r = reply resp HTTP_400 (errors_body "POST body sent invalid JSON.").


(** A blank: a space, a tab, a line feed or a carriage return. *)
Definition blank (c : ascii) : bool :=
  let n := nat_of_ascii c in
  Nat.eqb n 32 || Nat.eqb n 9 || Nat.eqb n 10 || Nat.eqb n 13.

Fixpoint has_blank (s : string) : bool :=
  match s with
  | EmptyString => false
  | String c rest => blank c || has_blank rest
  end.

Fixpoint has_space (s : string) : bool :=
  match s with
  | EmptyString => false
  | String c rest => Nat.eqb (nat_of_ascii c) 32 || has_space rest
  end.

(** No string and no key of the value holds a space (and no text of a
    float a blank). *)
Fixpoint spaceless (v : pyval) : bool :=
  match v with
  | PNone | PBool _ | PInt _ => true
  | PFloat r => negb (has_blank r)
  | PStr s => negb (has_space s)
  | PList l => forallb spaceless l
  | PDict d => forallb (fun kv => negb (has_space (fst kv)) && spaceless (snd kv)) d
  end.


(** What the hook makes of an outcome. *)
Definition allowing (req : request) (o : outcome) : outcome :=
  match o with
  | Responded r => Responded (set_graphql_allow_header req r)
  | Raised e => Raised e
  end.

(* ===================================================================== *)
(** * Properties                                                          *)
(* ===================================================================== *)

Section Facts.

Context `{Builtins}.
Variable schema : engine.

Lemma absent_or_empty_given req k : absent_or_empty req k → given req k = None.
Proof. unfold given. by intros [-> | ->]. Qed.

(** ** The steps of a responder *)

Lemma bind_go {A B : Type} (a : A) (k : A → flow B) : (Go a ≫= k) = k a.
Proof. reflexivity. Qed.

(** What [decode] does, by what [json.loads] does. *)
Lemma decode_cases resp text msg :
  (∃ j, json_loads text = Decoded j ∧ decode resp text msg = Go j)
  ∨ (json_loads text = JSONDecodeError ∧ decode resp text msg = bad_request resp msg)
  ∨ (∃ e, json_loads text = Uncaught e ∧ decode resp text msg = Throw e).
Proof.
  unfold decode. destruct (json_loads text) as [j| |e]; [left | right; left | right; right]; eauto.
Qed.

(** [str] of a value, then [json.loads] of the text. *)
Lemma decode_str resp v msg :
  (json_str ← eval (py_str v); decode resp json_str msg)
  = match loads_str v with
    | Decoded j => Go j
    | JSONDecodeError => bad_request resp msg
    | Uncaught e => Throw e
    end.
Proof. unfold loads_str, decode. by destruct (py_str v). Qed.

(** ** How [handle] ends, from how the request was read *)

Lemma finish_go c resp :
  finish schema (Go c) resp = {| out := respond (schema c) resp; calls := [c] |}.
Proof. by destruct c. Qed.

Lemma after_out action (rsp : request → response → run) req resp :
  out (after action rsp req resp)
  = match out (rsp req resp) with
    | Responded r => Responded (action req r)
    | Raised e => Raised e
    end.
Proof.
  unfold after. cbv zeta.
  destruct (out (rsp req resp)) eqn:E; simpl; [done | exact E].
Qed.

Lemma after_calls action (rsp : request → response → run) req resp :
  calls (after action rsp req resp) = calls (rsp req resp).
Proof. unfold after. cbv zeta. by destruct (out (rsp req resp)). Qed.

Lemma handle_out m req :
  out (handle schema m req)
  = allowing req
      (out (match m with
            | GET => on_get schema req fresh_response
            | POST => on_post schema req fresh_response
            | OPTIONS => on_options req fresh_response
            | HEAD => on_head req fresh_response
            | PUT => on_put req fresh_response
            | PATCH => on_patch req fresh_response
            | DELETE => on_delete req fresh_response
            end)).
Proof. unfold handle, responder. rewrite after_out. by destruct m. Qed.

Lemma handle_calls m req :
  calls (handle schema m req)
  = calls (match m with
           | GET => on_get schema req fresh_response
           | POST => on_post schema req fresh_response
           | OPTIONS => on_options req fresh_response
           | HEAD => on_head req fresh_response
           | PUT => on_put req fresh_response
           | PATCH => on_patch req fresh_response
           | DELETE => on_delete req fresh_response
           end).
Proof. unfold handle, responder. rewrite after_calls. by destruct m. Qed.

(** A request that is answered while it is read: the reply is the
    response, and the engine is not called. *)
Lemma get_replied req st b :
  on_get_request req fresh_response = Reply (reply fresh_response st b) →
  answers (handle schema GET req) st b ∧ calls (handle schema GET req) = [].
Proof.
  intros E. split.
  - eexists. rewrite handle_out. unfold on_get. rewrite E. simpl. done.
  - rewrite handle_calls. unfold on_get. by rewrite E.
Qed.

Lemma post_replied req st b :
  on_post_request req fresh_response = Reply (reply fresh_response st b) →
  answers (handle schema POST req) st b ∧ calls (handle schema POST req) = [].
Proof.
  intros E. split.
  - eexists. rewrite handle_out. unfold on_post. rewrite E. simpl. done.
  - rewrite handle_calls. unfold on_post. by rewrite E.
Qed.

(** A request that is read to the end: the engine is called once, and
    the response is the one to its result. *)
Lemma post_executed req c :
  on_post_request req fresh_response = Go c →
  handle schema POST req
  = {| out := allowing req (respond (schema c) fresh_response); calls := [c] |}.
Proof.
  intros E. unfold handle, responder, after, on_post. rewrite E, finish_go. simpl.
  by destruct (respond (schema c) fresh_response).
Qed.

(** A request that raises while it is read: the exception leaves the
    responder, and the engine is not called. *)
Lemma post_raised req e :
  on_post_request req fresh_response = Throw e →
  out (handle schema POST req) = Raised e ∧ calls (handle schema POST req) = [].
Proof.
  intros E. rewrite handle_out, handle_calls. unfold on_post. by rewrite E.
Qed.

Lemma get_raised req e :
  on_get_request req fresh_response = Throw e →
  out (handle schema GET req) = Raised e ∧ calls (handle schema GET req) = [].
Proof.
  intros E. rewrite handle_out, handle_calls. unfold on_get. by rewrite E.
Qed.

(** ** GET without a query *)

(** C4. A GET request whose URL has no [query] parameter, or has it
    empty, is answered 400 with the body
    [{"errors":[{"message":"Must provide query string."}]}]; the engine is
    not called; and the run is the same whatever the body of the request
    and its content type and length are. *)
Theorem C4_get_without_query (req : request) :
  absent_or_empty req "query" →
  answers (handle schema GET req) HTTP_400
    (lit "{'errors':[{'message':'Must provide query string.'}]}")
  ∧ calls (handle schema GET req) = []
  ∧ ∀ ct cl st, handle schema GET (with_body req ct cl st) = handle schema GET req.
Proof.
  intros Hq. apply absent_or_empty_given in Hq.
  assert (E : on_get_request req fresh_response
              = Reply (reply fresh_response HTTP_400
                         (lit "{'errors':[{'message':'Must provide query string.'}]}"))).
  { unfold on_get_request. by rewrite Hq. }
  destruct (get_replied _ _ _ E) as [Ha Hc]. repeat split; try done.
Qed.

(** ** Method dispatch *)

Lemma not_allowed_run req m :
  m = PUT ∨ m = PATCH ∨ m = DELETE →
  handle schema m req
  = {| out := Responded
                {| status := HTTP_405;
                   body := Some (lit "{'errors':[{'message':'GraphQL only supports GET and POST requests.'}]}");
                   headers := {[ "Allow" := "GET, POST, OPTIONS" ]} |};
       calls := [] |}.
Proof. by intros [-> | [-> | ->]]. Qed.

(** C9 (amended). Every OPTIONS request is answered 204. Every PUT,
    PATCH and DELETE request is answered 405 with the body
    [{"errors":[{"message":"GraphQL only supports GET and POST requests."}]}],
    whatever the request holds, without a call of the engine. Every
    response that a responder returns, for every method and every request,
    has the header [Allow: GET, POST, OPTIONS]. When a request ends with
    an exception, there is no response to carry the header: the method is
    GET or POST, and the run is the one of the responder as written, the
    hook that sets the header not having run. *)
Theorem C9_method_dispatch :
  (∀ req, ∃ resp, out (handle schema OPTIONS req) = Responded resp
                  ∧ status resp = HTTP_204 ∧ status_code (status resp) = 204)
  ∧ (∀ m req, m = PUT ∨ m = PATCH ∨ m = DELETE →
       answers (handle schema m req) HTTP_405
         (lit "{'errors':[{'message':'GraphQL only supports GET and POST requests.'}]}")
       ∧ status_line HTTP_405 = "405 Method Not Allowed"
       ∧ calls (handle schema m req) = [])
  ∧ (∀ m req resp, out (handle schema m req) = Responded resp →
       headers resp !! "Allow" = Some "GET, POST, OPTIONS")
  ∧ (∀ m req e, out (handle schema m req) = Raised e →
       (m = GET ∧ handle schema GET req = on_get schema req fresh_response)
       ∨ (m = POST ∧ handle schema POST req = on_post schema req fresh_response)).
Proof.
  split; [|split; [|split]].
  - intros req. by eexists.
  - intros m req Hm. rewrite (not_allowed_run req m Hm).
    split; [by eexists | done].
  - intros m req resp. rewrite handle_out.
    destruct (out _) as [r|e]; simpl; [|done].
    intros [= <-]. unfold set_graphql_allow_header, set_header. simpl.
    apply lookup_insert_eq.
  - intros m req e E.
    assert (Hafter : ∀ rsp : request → response → run,
              out (after set_graphql_allow_header rsp req fresh_response) = Raised e →
              after set_graphql_allow_header rsp req fresh_response
              = rsp req fresh_response).
    { intros rsp. unfold after. cbv zeta. by destruct (out (rsp req fresh_response)). }
    destruct m; try done; [left | right]; (split; [done|]); by apply Hafter.
Qed.
(** ** POST with the query as body *)

Lemma no_params_given req k : params req = ∅ → given req k = None.
Proof. unfold given. intros ->. by rewrite lookup_empty. Qed.

Lemma truthy_str s : truthy (PStr s) = true ↔ s ≠ "".
Proof.
  simpl. rewrite negb_true_iff. split.
  - intros E ->. by rewrite String.eqb_refl in E.
  - intros N. by apply String.eqb_neq.
Qed.

(** A URL parameter with one value, not empty, is given. *)
Lemma given_one req k s :
  params req !! k = Some (One s) → s ≠ "" → given req k = Some (One s).
Proof.
  intros E Hne. unfold given. rewrite E.
  apply truthy_str in Hne. simpl in *. by rewrite Hne.
Qed.

(** The URL parameters of a request without any. *)
Lemma no_params_url req resp :
  params req = ∅ →
  url_query req = None ∧ url_variables req resp = Go PNone
  ∧ url_operation_name req = None.
Proof.
  intros Hp. unfold url_query, url_variables, url_operation_name.
  by rewrite !(no_params_given req _ Hp).
Qed.

(** The variables of the URL, when reading them does not end the request. *)
Lemma url_variables_go req resp j :
  url_variables req resp = Go j →
  match given req "variables" with
  | Some v => json_loads (str_param v) = Decoded j
  | None => j = PNone
  end.
Proof.
  unfold url_variables, decode.
  destruct (given req "variables") as [v|]; [|by intros [= <-]].
  destruct (json_loads (str_param v)); [by intros [= <-] | done..].
Qed.

Lemma url_variables_decoded req resp :
  url_variables_decode req → ∃ j, url_variables req resp = Go j.
Proof.
  intros Hv. unfold url_variables, decode.
  destruct (given req "variables") as [v|] eqn:E; [|by eexists].
  destruct (Hv v E) as [j ->]. by eexists.
Qed.

(** What the GraphQL branch calls the engine with. *)
Lemma graphql_body_go req resp query j operation_name call :
  graphql_body req resp query j operation_name = Go call →
  op_variables call = j ∧ op_name call = operation_name
  ∧ ∃ text, stream req = Some text
            ∧ op_query call = match query with Some q => q | None => text end
            ∧ (query = None → text ≠ "").
Proof.
  unfold graphql_body. destruct (stream req) as [text|]; [|done].
  rewrite bind_go. intros E.
  assert (Hq : ∀ q, Go {| op_query := q; op_variables := j; op_name := operation_name |}
                    = Go call →
               op_variables call = j ∧ op_name call = operation_name ∧ op_query call = q).
  { by intros q [= <-]. }
  destruct query as [q|]; simpl in E.
  - apply Hq in E as (? & ? & ?). do 2 (split; [done|]). by exists text.
  - destruct (negb (String.eqb text "")) eqn:Ht; [|done].
    apply Hq in E as (? & ? & ?). do 2 (split; [done|]). exists text.
    do 2 (split; [done|]). intros _. by apply truthy_str.
Qed.

Lemma calls_go (m : flow OperationRequest) resp call :
  calls (finish schema m resp) = [call] → m = Go call.
Proof. destruct m as [[q vs o]| |]; simpl; [|done..]. by intros [= <-]. Qed.

Lemma post_calls req call :
  calls (handle schema POST req) = [call] → on_post_request req fresh_response = Go call.
Proof. rewrite handle_calls. apply calls_go. Qed.

Lemma get_calls req call :
  calls (handle schema GET req) = [call] → on_get_request req fresh_response = Go call.
Proof. rewrite handle_calls. apply calls_go. Qed.

Lemma bind_go_inv {A B : Type} (m : flow A) (k : A → flow B) (b : B) :
  (m ≫= k) = Go b → ∃ a, m = Go a ∧ k a = Go b.
Proof. destruct m as [a| |]; [|done..]. intros E. by exists a. Qed.

(** C6 (amended). A POST request of content type [application/graphql]
    (and not [application/json]) whose body is UTF-8 text: with no URL
    parameter, a body that is not empty is the query the engine is called
    with, without variables ([None]) and without operation name, and an
    empty body is answered 400 [Must provide query string.]; and whenever
    the engine is called on this branch, the variables are the URL
    parameter [variables], decoded, or [None] when it is absent or empty,
    the operation name is the URL parameter [operationName], or none when
    it is absent or empty, and both are the same whatever the text of the
    body is. *)
Theorem C6_graphql_body (req : request) (text : string) :
  content_type_has "application/json" req = false →
  content_type_has "application/graphql" req = true →
  stream req = Some text →
  (params req = ∅ → text ≠ "" →
     let call := {| op_query := text; op_variables := PNone; op_name := None |} in
     handle schema POST req
     = {| out := allowing req (respond (schema call) fresh_response);
          calls := [call] |})
  ∧ (params req = ∅ → text = "" →
       answers (handle schema POST req) HTTP_400
         (lit "{'errors':[{'message':'Must provide query string.'}]}")
       ∧ calls (handle schema POST req) = [])
  ∧ (∀ call, calls (handle schema POST req) = [call] →
       (∀ s, params req !! "variables" = Some (One s) → s ≠ "" →
             json_loads s = Decoded (op_variables call))
       ∧ (absent_or_empty req "variables" → op_variables call = PNone)
       ∧ (∀ s, params req !! "operationName" = Some (One s) → s ≠ "" →
               op_name call = Some s)
       ∧ (absent_or_empty req "operationName" → op_name call = None)
       ∧ (∀ text' call',
            calls (handle schema POST
                     (with_body req (content_type req) (content_length req) (Some text')))
            = [call'] →
            op_variables call' = op_variables call ∧ op_name call' = op_name call)).
Proof.
  intros Hj Hg Hs.
  assert (Hpost : ∀ r resp, params r = params req → content_type r = content_type req →
            on_post_request r resp
            = (variables ← url_variables req resp;
               graphql_body r resp (url_query req) variables (url_operation_name req))).
  { intros r resp Hp Hc. unfold on_post_request.
    unfold content_type_has in *. rewrite Hc, Hj, Hg.
    unfold url_variables, url_query, url_operation_name, given. by rewrite Hp. }
  split; [|split].
  - intros Hp Hne call. apply post_executed. rewrite Hpost by done.
    destruct (no_params_url req fresh_response Hp) as (-> & -> & ->). simpl.
    unfold graphql_body. rewrite Hs. simpl.
    apply truthy_str in Hne. simpl in Hne. by rewrite Hne.
  - intros Hp ->. apply post_replied. rewrite Hpost by done.
    destruct (no_params_url req fresh_response Hp) as (-> & -> & ->). simpl.
    unfold graphql_body. by rewrite Hs.
  - intros call E. apply post_calls in E. rewrite Hpost in E by done.
    apply bind_go_inv in E as (j & Ej & E).
    apply graphql_body_go in E as (Hvs & Hn & _).
    pose proof (url_variables_go _ _ _ Ej) as Hj'.
    split; [|split; [|split; [|split]]].
    + intros s Hps Hne. rewrite (given_one _ _ _ Hps Hne) in Hj'. by rewrite Hvs.
    + intros Ha. rewrite (absent_or_empty_given _ _ Ha) in Hj'. by rewrite Hvs.
    + intros s Hps Hne. rewrite Hn. unfold url_operation_name.
      by rewrite (given_one _ _ _ Hps Hne).
    + intros Ha. rewrite Hn. unfold url_operation_name.
      by rewrite (absent_or_empty_given _ _ Ha).
    + intros text' call' E'. apply post_calls in E'. rewrite Hpost in E' by done.
      rewrite Ej, bind_go in E'.
      apply graphql_body_go in E' as (Hvs' & Hn' & _). by rewrite Hvs, Hn, Hvs', Hn'.
Qed.

(** ** POST with a JSON body *)

(** What the JSON branch does with a body that decodes to [post_data]. *)
Lemma json_body_decoded req resp query variables operation_name text post_data :
  no_content req = false →
  stream req = Some text →
  json_loads text = Decoded post_data →
  json_body req resp query variables operation_name
  = (query ← body_query resp query post_data;
     variables ← body_variables resp variables post_data;
     operation_name ← body_operation_name operation_name post_data;
     Go {| op_query := query; op_variables := variables; op_name := operation_name |}).
Proof.
  intros Hlen Hs Hd. unfold json_body, decode. rewrite Hlen, Hs. simpl. by rewrite Hd.
Qed.


(** ** Variables that are not JSON *)

Lemma dict_get_truthy k d v : dict_get k d = Some v → truthy (PDict d) = true.
Proof. by destruct d. Qed.

(** The query of a JSON body that is an object: the one of the URL, or
    else the text of the field [query]. *)
Lemma body_query_dict resp query d :
  body_query resp query (PDict d)
  = match query, dict_get "query" d with
    | Some q, _ => Go q
    | None, Some v => eval (py_str v)
    | None, None => bad_request resp "Must provide query string."
    end.
Proof.
  unfold body_query. destruct query as [q|]; [done|].
  destruct (dict_get "query" d) as [v|] eqn:E.
  - rewrite (dict_get_truthy _ _ _ E). simpl. by rewrite E.
  - destruct (truthy (PDict d)); [|done]. simpl. by rewrite E.
Qed.

(** The variables of a JSON body that is an object, when the URL gave
    none (or gave [null]). *)
Lemma body_variables_dict resp d :
  body_variables resp PNone (PDict d)
  = match dict_get "variables" d with
    | Some v =>
        if truthy v then
          match loads_str v with
          | Decoded j => Go j
          | JSONDecodeError => bad_request resp "Variables are invalid JSON."
          | Uncaught e => Throw e
          end
        else Go (PStr "")
    | None => Go (PStr "")
    end.
Proof.
  unfold body_variables.
  destruct (dict_get "variables" d) as [v|] eqn:E.
  - rewrite (dict_get_truthy _ _ _ E). simpl. rewrite E. simpl.
    destruct (truthy v); [|done]. apply decode_str.
  - destruct (truthy (PDict d)); [|done]. simpl. by rewrite E.
Qed.


(** ** The query and the operation name of a JSON body *)

Lemma url_variables_cases req resp :
  (∃ j, url_variables req resp = Go j)
  ∨ (url_variables req resp = bad_request resp "Variables are invalid JSON."
     ∧ ∃ u, given req "variables" = Some u ∧ json_loads (str_param u) = JSONDecodeError)
  ∨ (∃ e, url_variables req resp = Throw e ∧ url_raises req e).
Proof.
  unfold url_variables, url_raises, decode.
  destruct (given req "variables") as [u|]; [|left; by eexists].
  destruct (json_loads (str_param u)) as [j| |e] eqn:E;
    [left; by eexists | right; left | right; right].
  - split; [done|]. by exists u.
  - exists e. split; [done|]. by exists u.
Qed.

Lemma body_variables_cases resp variables d :
  (∃ j, body_variables resp variables (PDict d) = Go j)
  ∨ (body_variables resp variables (PDict d)
       = bad_request resp "Variables are invalid JSON."
     ∧ ∃ w, dict_get "variables" d = Some w ∧ truthy w = true
            ∧ loads_str w = JSONDecodeError)
  ∨ (∃ e, body_variables resp variables (PDict d) = Throw e
          ∧ ∃ w, dict_get "variables" d = Some w ∧ truthy w = true
                 ∧ loads_str w = Uncaught e).
Proof.
  destruct variables; try (left; by eexists).
  rewrite body_variables_dict.
  destruct (dict_get "variables" d) as [w|]; [|left; by eexists].
  destruct (truthy w) eqn:Ht; [|left; by eexists].
  destruct (loads_str w) as [j| |e] eqn:E;
    [left; by eexists | right; left | right; right].
  - split; [done|]. by exists w.
  - exists e. split; [done|]. by exists w.
Qed.

Lemma body_operation_name_dict operation_name d :
  body_operation_name operation_name (PDict d)
  = match operation_name, dict_get "operationName" d with
    | Some o, _ => Go (Some o)
    | None, Some w =>
        if truthy w then
          match py_str w with
          | Val name => Go (Some name)
          | Exc e => Throw e
          end
        else Go None
    | None, None => Go None
    end.
Proof.
  unfold body_operation_name. destruct operation_name as [o|]; [done|]. simpl.
  destruct (dict_get "operationName" d) as [w|]; simpl; [|done].
  destruct (truthy w); [|done]. by destruct (py_str w).
Qed.

Lemma body_operation_name_cases operation_name d :
  (∃ o, body_operation_name operation_name (PDict d) = Go o
        ∧ (operation_name = None →
           ∀ w, dict_get "operationName" d = Some w → truthy w = true →
                ∃ name, py_str w = Val name ∧ o = Some name))
  ∨ (∃ e, body_operation_name operation_name (PDict d) = Throw e
          ∧ operation_name = None
          ∧ ∃ w, dict_get "operationName" d = Some w ∧ truthy w = true
                 ∧ py_str w = Exc e).
Proof.
  rewrite body_operation_name_dict.
  destruct operation_name as [o|]; [left; by eexists|].
  destruct (dict_get "operationName" d) as [w|]; [|left; by eexists].
  destruct (truthy w) eqn:Ht.
  - destruct (py_str w) as [name|e] eqn:Es.
    + left. eexists. split; [done|]. intros _ w' [= <-] _. by exists name.
    + right. exists e. do 2 (split; [done|]). by exists w.
  - left. eexists. split; [done|]. intros _ w' [= <-] Ht'. congruence.
Qed.

(** C10 (amended). A POST request with a JSON body that is an object
    with a field [query] of truthy value [v], a string or not, and no query
    in the URL, is not rejected for its query, and ends in one of three
    ways. Variables of the URL or of the body on which [json.loads] raises
    [JSONDecodeError] are answered 400 [Variables are invalid JSON.]. Or
    the engine is called once, with the text that [str(v)] returns as
    query, and with the text that [str] returns for a truthy field
    [operationName] of the body as operation name when the URL names no
    operation. Or an exception that no handler catches leaves the
    responder before the engine is called: one that [json.loads] raises on
    the variables of the URL, or one that [str] or [json.loads] raises on
    the field [query], [variables] or [operationName] of the body. *)
Theorem C10_body_query_coerced (req : request) (text : string)
    (d : list (string * pyval)) (v : pyval) :
  content_type_has "application/json" req = true →
  no_content req = false →
  stream req = Some text →
  json_loads text = Decoded (PDict d) →
  given req "query" = None →
  dict_get "query" d = Some v →
  truthy v = true →
  (((∃ u, given req "variables" = Some u ∧ json_loads (str_param u) = JSONDecodeError)
    ∨ (∃ w, dict_get "variables" d = Some w ∧ truthy w = true
            ∧ loads_str w = JSONDecodeError))
   ∧ answers (handle schema POST req) HTTP_400
       (lit "{'errors':[{'message':'Variables are invalid JSON.'}]}")
   ∧ calls (handle schema POST req) = [])
  ∨ (∃ call, calls (handle schema POST req) = [call]
       ∧ py_str v = Val (op_query call)
       ∧ (given req "operationName" = None →
          ∀ w, dict_get "operationName" d = Some w → truthy w = true →
               ∃ name, py_str w = Val name ∧ op_name call = Some name))
  ∨ (∃ e, out (handle schema POST req) = Raised e
       ∧ calls (handle schema POST req) = []
       ∧ (url_raises req e
          ∨ py_str v = Exc e
          ∨ (∃ w, dict_get "variables" d = Some w ∧ truthy w = true
                  ∧ loads_str w = Uncaught e)
          ∨ (given req "operationName" = None
             ∧ ∃ w, dict_get "operationName" d = Some w ∧ truthy w = true
                    ∧ py_str w = Exc e))).
Proof.
  intros Hj Hlen Hs Hd Hq Hv _.
  assert (Hpost : on_post_request req fresh_response
            = (variables ← url_variables req fresh_response;
               query ← eval (py_str v);
               variables ← body_variables fresh_response variables (PDict d);
               operation_name ← body_operation_name (url_operation_name req) (PDict d);
               Go {| op_query := query; op_variables := variables;
                     op_name := operation_name |})).
  { unfold on_post_request. rewrite Hj.
    destruct (url_variables req fresh_response) as [j| |]; [|done..].
    rewrite !bind_go, (json_body_decoded _ _ _ _ _ _ _ Hlen Hs Hd), body_query_dict.
    unfold url_query. by rewrite Hq, Hv. }
  destruct (url_variables_cases req fresh_response)
    as [[j Ej] | [[Ej Hu] | (e & Ej & Hu)]].
  - rewrite Ej, bind_go in Hpost.
    destruct (py_str v) as [q|e] eqn:Eq; simpl in Hpost.
    2:{ right; right. exists e. destruct (post_raised _ _ Hpost).
        do 2 (split; [done|]). right; by left. }
    destruct (body_variables_cases fresh_response j d)
      as [[j' Eb] | [[Eb Hw] | (e & Eb & Hw)]].
    + rewrite Eb, bind_go in Hpost.
      destruct (body_operation_name_cases (url_operation_name req) d)
        as [(o & Eo & Ho) | (e & Eo & Hn & Hw)].
      * right; left. rewrite Eo, bind_go in Hpost.
        eexists. rewrite (post_executed _ _ Hpost). simpl.
        split; [done|]. split; [done|].
        intros Hgo. apply Ho. unfold url_operation_name. by rewrite Hgo.
      * right; right. exists e. rewrite Eo in Hpost.
        destruct (post_raised _ _ Hpost). do 2 (split; [done|]).
        do 3 right. split; [|done].
        unfold url_operation_name in Hn. by destruct (given req "operationName").
    + left. split; [by right|]. apply post_replied. by rewrite Hpost, Eb.
    + right; right. exists e. rewrite Eb in Hpost.
      destruct (post_raised _ _ Hpost). do 2 (split; [done|]).
      right; right; by left.
  - left. split; [by left|]. apply post_replied. by rewrite Hpost, Ej.
  - right; right. exists e. rewrite Ej in Hpost.
    destruct (post_raised _ _ Hpost). do 2 (split; [done|]). by left.
Qed.

(** ** A result with neither data nor errors *)

(** C7 (amended). When the engine returns a result whose data is [None]
    and whose errors are [None] or the empty list, the responder of GET
    and of POST writes no response: the bare [raise] ends it with a
    [RuntimeError], which leaves the responder; no status and no body
    answer the request. *)
Theorem C7_neither_data_nor_errors (m : http_method) (req : request)
    (call : OperationRequest) :
  m = GET ∨ m = POST →
  calls (handle schema m req) = [call] →
  data (schema call) = PNone →
  errors (schema call) = None ∨ errors (schema call) = Some [] →
  out (handle schema m req) = Raised RuntimeError
  ∧ ∀ st b, ¬ answers (handle schema m req) st b.
Proof.
  intros Hm Hc Hd He.
  assert (Hout : out (handle schema m req) = Raised RuntimeError).
  { rewrite handle_calls in Hc. rewrite handle_out.
    assert (Hr : respond (schema call) fresh_response = Raised RuntimeError).
    { unfold respond. rewrite Hd. simpl. by destruct He as [-> | ->]. }
    destruct Hm as [-> | ->]; apply calls_go in Hc.
    - unfold on_get. by rewrite Hc, finish_go; simpl; rewrite Hr.
    - unfold on_post. by rewrite Hc, finish_go; simpl; rewrite Hr. }
  split; [done|]. intros st b (resp & Hresp & _). by rewrite Hout in Hresp.
Qed.
(** ** What the URL gives is what the engine gets *)

(** The three steps of the JSON branch keep what the URL gave: a query,
    variables other than [None], an operation name. *)
Lemma body_query_keeps resp q post_data q' :
  body_query resp (Some q) post_data = Go q' → q' = q.
Proof. by intros [= <-]. Qed.

Lemma body_variables_keeps resp j post_data j' :
  j ≠ PNone → body_variables resp j post_data = Go j' → j' = j.
Proof. destruct j; try done; by intros _ [= <-]. Qed.

Lemma body_operation_name_keeps o post_data o' :
  body_operation_name (Some o) post_data = Go o' → o' = Some o.
Proof. by intros [= <-]. Qed.

Lemma json_body_keeps req resp query j operation_name call :
  json_body req resp query j operation_name = Go call →
  (∀ q, query = Some q → op_query call = q)
  ∧ (j ≠ PNone → op_variables call = j)
  ∧ (∀ o, operation_name = Some o → op_name call = Some o).
Proof.
  unfold json_body. destruct (no_content req); [done|].
  intros E.
  apply bind_go_inv in E as (raw_json & _ & E).
  apply bind_go_inv in E as (post_data & _ & E).
  apply bind_go_inv in E as (q' & Eq & E).
  apply bind_go_inv in E as (j' & Ej & E).
  apply bind_go_inv in E as (o' & Eo & E).
  injection E as <-. simpl. repeat split.
  - intros q ->. by apply body_query_keeps in Eq.
  - intros Hj. by apply body_variables_keeps in Ej.
  - intros o ->. by apply body_operation_name_keeps in Eo.
Qed.

Lemma graphql_body_keeps req resp query j operation_name call :
  graphql_body req resp query j operation_name = Go call →
  (∀ q, query = Some q → op_query call = q)
  ∧ op_variables call = j ∧ op_name call = operation_name.
Proof.
  intros E. apply graphql_body_go in E as (Hj & Hn & text & _ & Hq & _).
  repeat split; [|done..]. by intros q ->.
Qed.

(** URL parameters come first on POST. When the engine is called: a query
    given in the URL is the query of the call; an operation name given in
    the URL is the operation name of the call; variables given in the URL
    that decode to a value other than [None] are the variables of the
    call. The body, whatever its content type, does not replace them. *)
Theorem url_parameters_first (req : request) (call : OperationRequest) :
  calls (handle schema POST req) = [call] →
  (∀ v, given req "query" = Some v → op_query call = str_param v)
  ∧ (∀ v, given req "operationName" = Some v → op_name call = Some (str_param v))
  ∧ (∀ v j, given req "variables" = Some v → json_loads (str_param v) = Decoded j →
            j ≠ PNone → op_variables call = j).
Proof.
  intros E. apply post_calls in E. unfold on_post_request in E.
  apply bind_go_inv in E as (j & Ej & E). apply url_variables_go in Ej.
  assert (Hfields : (∀ q, url_query req = Some q → op_query call = q)
                    ∧ (j ≠ PNone → op_variables call = j)
                    ∧ (∀ o, url_operation_name req = Some o → op_name call = Some o)).
  { destruct (content_type_has "application/json" req).
    { by apply json_body_keeps in E. }
    destruct (content_type_has "application/graphql" req).
    { apply graphql_body_keeps in E as (Hq & Hj & ->). by repeat split. }
    destruct (url_query req) as [q|]; [|done]. injection E as <-. simpl.
    repeat split; [by intros ? [= <-] | done]. }
  destruct Hfields as (Hq & Hj & Ho). repeat split.
  - intros v Hv. apply Hq. unfold url_query. by rewrite Hv.
  - intros v Hv. apply Ho. unfold url_operation_name. by rewrite Hv.
  - intros v j' Hv Hl Hne. rewrite Hv, Hl in Ej. injection Ej as <-. by apply Hj.
Qed.

(** ** The response to a result *)

Lemma append_assoc (a b c : string) : (a +:+ b) +:+ c = a +:+ b +:+ c.
Proof.
  induction a as [|ch a IH]; [done|].
  change (String ch ((a +:+ b) +:+ c) = String ch (a +:+ b +:+ c)). by rewrite IH.
Qed.

(** An object of one item, as [json_dumps] writes it. *)
Lemma dumps_item k v :
  json_dumps (PDict [(k, v)]) = "{" +:+ quoted k +:+ ":" +:+ json_dumps v +:+ "}".
Proof. cbn [json_dumps map String.concat fst snd]. by rewrite !append_assoc. Qed.

Lemma dumps_list l :
  json_dumps (PList l) = "[" +:+ String.concat "," (map json_dumps l) +:+ "]".
Proof. reflexivity. Qed.

(** A result with truthy data is answered 200 with the body
    [{"data":<data>}], whether it has errors or not; a result whose data
    is [None] and whose errors are a list that is not empty is answered
    400 with the body [{"errors":[{"message":<str(e)>},...]}], one object
    with the only key [message] per error, in the order of the list. *)
Theorem response_to_result (result : ExecutionResult) (resp : response) :
  (truthy (data result) = true →
     respond result resp
     = Responded (reply resp HTTP_200
                    (lit "{'data':" +:+ json_dumps (data result) +:+ "}")))
  ∧ (∀ es, data result = PNone → errors result = Some es → es ≠ [] →
       respond result resp
       = Responded (reply resp HTTP_400
                      (lit "{'errors':["
                       +:+ String.concat ","
                             (map (λ e, lit "{'message':" +:+ quoted (str_error e) +:+ "}") es)
                       +:+ "]}"))).
Proof.
  split.
  - intros Ht. unfold respond. rewrite Ht. cbv zeta. by rewrite dumps_item.
  - intros es Hf He Hne. unfold respond. rewrite Hf, He. cbn [truthy].
    destruct es as [|e es]; [done|]. cbv zeta.
    rewrite dumps_item, dumps_list, map_map.
    rewrite (map_ext _ (λ e, lit "{'message':" +:+ quoted (str_error e) +:+ "}"))
      by (intros i; by rewrite dumps_item).
    do 2 f_equal. change (lit "{'errors':[") with ("{" +:+ quoted "errors" +:+ ":" +:+ "[").
    by rewrite !append_assoc.
Qed.

(** ** The query the engine gets is not empty, but for one path *)
(** ** The query the engine gets is not empty, but for one path *)

Lemma given_str_not_empty req k v :
  (∀ l, repr_strings l ≠ "") → given req k = Some v → str_param v ≠ "".
Proof.
  intros Hrepr. unfold given. destruct (params req !! k) as [[s|l]|]; [| |done].
  - destruct (truthy (param_val (One s))) eqn:Ht; [|done].
    intros [= <-]. by apply truthy_str.
  - destruct (truthy (param_val (Many l))); [|done].
    intros [= <-]. apply Hrepr.
Qed.

(** When [repr] of a list is never the empty string: the engine is never
    called with an empty query by a GET request; and by a POST request
    only on the JSON branch, with no query in the URL (the query is then
    the field [query] of the body, which is not tested for emptiness). *)
Theorem query_not_empty (req : request) (call : OperationRequest) :
  (∀ l, repr_strings l ≠ "") →
  (calls (handle schema GET req) = [call] → op_query call ≠ "")
  ∧ (calls (handle schema POST req) = [call] → op_query call = "" →
       content_type_has "application/json" req = true ∧ given req "query" = None).
Proof.
  intros Hrepr. split.
  - intros E. apply get_calls in E. unfold on_get_request in E.
    destruct (given req "query") as [v|] eqn:Hq; [|done].
    rewrite bind_go in E.
    apply bind_go_inv in E as (j & _ & E). injection E as <-. simpl.
    by apply (given_str_not_empty req "query").
  - intros E Hempty. apply post_calls in E. unfold on_post_request in E.
    apply bind_go_inv in E as (j & _ & E).
    assert (Hurl : ∀ q, url_query req = Some q → q ≠ "").
    { unfold url_query. intros q. destruct (given req "query") as [v|] eqn:Hq; [|done].
      intros [= <-]. by apply (given_str_not_empty req "query"). }
    destruct (content_type_has "application/json" req).
    + split; [done|].
      destruct (url_query req) as [q|] eqn:Hq.
      * apply json_body_keeps in E as (Hkeep & _). rewrite (Hkeep q eq_refl) in Hempty.
        by destruct (Hurl q eq_refl).
      * unfold url_query in Hq. by destruct (given req "query").
    + exfalso. destruct (content_type_has "application/graphql" req).
      * apply graphql_body_go in E as (_ & _ & text & Hs & Hq & Hne).
        rewrite Hempty in Hq. destruct (url_query req) as [q|] eqn:Eq.
        -- subst q. by destruct (Hurl "" eq_refl).
        -- subst text. by destruct (Hne eq_refl).
      * destruct (url_query req) as [q|]; [|done]. injection E as <-.
        simpl in Hempty. by destruct (Hurl q eq_refl).
Qed.
(** ** Every way a GET request ends *)

Lemma get_executed req c :
  on_get_request req fresh_response = Go c →
  handle schema GET req
  = {| out := allowing req (respond (schema c) fresh_response); calls := [c] |}.
Proof.
  intros E. unfold handle, responder, after, on_get. rewrite E, finish_go. simpl.
  by destruct (respond (schema c) fresh_response).
Qed.

(** A GET request ends in one of four ways, by what its URL holds: no
    query, and the answer is 400 [Must provide query string.]; a query
    and variables on which [json.loads] raises [JSONDecodeError], and the
    answer is 400 [Variables are invalid JSON.]; a query and variables on
    which [json.loads] raises another exception, which leaves the
    responder; otherwise one call of the engine, with the query, the
    decoded variables (the empty string when there are none) and the
    operation name of the URL, and the response to its result. The engine
    is not called in the first three. *)
Theorem get_cases (req : request) :
  (given req "query" = None
   ∧ answers (handle schema GET req) HTTP_400
       (lit "{'errors':[{'message':'Must provide query string.'}]}")
   ∧ calls (handle schema GET req) = [])
  ∨ (∃ v, is_Some (given req "query")
          ∧ given req "variables" = Some v ∧ json_loads (str_param v) = JSONDecodeError
          ∧ answers (handle schema GET req) HTTP_400
              (lit "{'errors':[{'message':'Variables are invalid JSON.'}]}")
          ∧ calls (handle schema GET req) = [])
  ∨ (∃ v e, is_Some (given req "query")
            ∧ given req "variables" = Some v ∧ json_loads (str_param v) = Uncaught e
            ∧ out (handle schema GET req) = Raised e
            ∧ calls (handle schema GET req) = [])
  ∨ (∃ q call,
       given req "query" = Some q
       ∧ op_query call = str_param q
       ∧ match given req "variables" with
         | Some v => json_loads (str_param v) = Decoded (op_variables call)
         | None => op_variables call = PStr ""
         end
       ∧ op_name call = str_param <$> given req "operationName"
       ∧ handle schema GET req
         = {| out := allowing req (respond (schema call) fresh_response);
              calls := [call] |}).
Proof.
  destruct (given req "query") as [q|] eqn:Hq.
  - destruct (given req "variables") as [v|] eqn:Hv.
    + destruct (json_loads (str_param v)) as [j| |e] eqn:Hj.
      * do 3 right. eexists q, _. split; [done|].
        split; [|split; [|split]]; last first.
        { apply get_executed. unfold on_get_request, decode. by rewrite Hq, Hv, Hj. }
        all: by destruct (given req "operationName").
      * right; left. exists v. split; [by eexists|]. do 2 (split; [done|]).
        apply get_replied. unfold on_get_request, decode. by rewrite Hq, Hv, Hj.
      * right; right; left. exists v, e. split; [by eexists|]. do 2 (split; [done|]).
        apply get_raised. unfold on_get_request, decode. by rewrite Hq, Hv, Hj.
    + do 3 right. eexists q, _. split; [done|].
      split; [|split; [|split]]; last first.
      { apply get_executed. unfold on_get_request. by rewrite Hq, Hv. }
      all: by destruct (given req "operationName").
  - left. split; [done|]. apply get_replied. unfold on_get_request. by rewrite Hq.
Qed.

(** ** When a responder raises *)

Lemma respond_raised result resp e :
  respond result resp = Raised e → e = RuntimeError ∧ empty_result result.
Proof.
  unfold respond, empty_result. destruct (truthy (data result)); [done|].
  destruct (errors result) as [[|x es]|]; [|done|]; intros [= <-]; auto.
Qed.

Lemma allowing_raised req o e : allowing req o = Raised e → o = Raised e.
Proof. by destruct o. Qed.

Lemma not_dict_cases (v : pyval) : is_dict v ∨ ¬ is_dict v.
Proof. destruct v; [right..|left]; try by intros [? ?]. by eexists. Qed.

(** The three steps of the JSON branch raise a [TypeError] on a body
    that is not a dict, and on a dict what [str] or [json.loads] raises on
    the field they read. *)
Lemma body_query_throw resp query post_data e :
  body_query resp query post_data = Throw e →
  (e = TypeError ∧ ¬ is_dict post_data)
  ∨ ∃ d w, post_data = PDict d ∧ dict_get "query" d = Some w ∧ py_str w = Exc e.
Proof.
  destruct (not_dict_cases post_data) as [[d ->] | Hnd].
  - rewrite body_query_dict. intros E. right. exists d.
    destruct query; [done|]. destruct (dict_get "query" d) as [w|]; [|done].
    exists w. destruct (py_str w); [done|]. by injection E as ->.
  - intros E. left. split; [|done]. unfold body_query in E.
    destruct post_data; simpl in E; repeat case_match; simplify_eq;
      try done; destruct Hnd; by eexists.
Qed.

Lemma body_variables_throw resp variables post_data e :
  body_variables resp variables post_data = Throw e →
  (e = TypeError ∧ ¬ is_dict post_data)
  ∨ ∃ d w, post_data = PDict d ∧ dict_get "variables" d = Some w ∧ truthy w = true
           ∧ loads_str w = Uncaught e.
Proof.
  destruct (not_dict_cases post_data) as [[d ->] | Hnd].
  - destruct (body_variables_cases resp variables d)
      as [[j ->] | [[-> _] | (e' & -> & w & Hw)]]; [done..|].
    intros [= <-]. right. by exists d, w.
  - intros E. left. split; [|done]. unfold body_variables in E.
    destruct post_data; simpl in E; repeat case_match; simplify_eq;
      try done; destruct Hnd; by eexists.
Qed.

Lemma body_operation_name_throw operation_name post_data e :
  body_operation_name operation_name post_data = Throw e →
  (e = TypeError ∧ ¬ is_dict post_data)
  ∨ ∃ d w, post_data = PDict d ∧ dict_get "operationName" d = Some w
           ∧ truthy w = true ∧ py_str w = Exc e.
Proof.
  destruct (not_dict_cases post_data) as [[d ->] | Hnd].
  - destruct (body_operation_name_cases operation_name d)
      as [(o & -> & _) | (e' & -> & _ & w & Hw)]; [done|].
    intros [= <-]. right. by exists d, w.
  - intros E. left. split; [|done]. unfold body_operation_name in E.
    destruct post_data; simpl in E; repeat case_match; simplify_eq;
      try done; destruct Hnd; by eexists.
Qed.

Lemma bind_throw_inv {A B : Type} (m : flow A) (k : A → flow B) (e : exn) :
  (m ≫= k) = Throw e → m = Throw e ∨ ∃ a, m = Go a ∧ k a = Throw e.
Proof. destruct m as [a| |]; [|done|]; intros E; [right; by exists a | left; by injection E as ->]. Qed.

Lemma url_variables_throw req resp e :
  url_variables req resp = Throw e → url_raises req e.
Proof.
  intros E. destruct (url_variables_cases req resp)
    as [[j Ej] | [[Ej _] | (e' & Ej & Hu)]]; rewrite Ej in E; [done..|].
  by injection E as <-.
Qed.

(** What raises while a POST request is read: [json.loads] on the
    variables of the URL, the decoding of a body that is not UTF-8, a
    JSON body that is not an object, or [json.loads] or [str] on a JSON
    body. *)
Lemma on_post_request_throw req resp e :
  on_post_request req resp = Throw e →
  (e = UnicodeDecodeError ∧ stream req = None)
  ∨ (e = TypeError ∧ content_type_has "application/json" req = true
     ∧ ∃ text post_data, stream req = Some text ∧ json_loads text = Decoded post_data
                         ∧ ¬ is_dict post_data)
  ∨ url_raises req e
  ∨ (content_type_has "application/json" req = true ∧ body_raises req e).
Proof.
  unfold on_post_request. intros E.
  apply bind_throw_inv in E as [E | (j & _ & E)].
  { right; right; left. by apply url_variables_throw in E. }
  destruct (content_type_has "application/json" req).
  - unfold json_body, decode in E. destruct (no_content req); [done|].
    destruct (stream req) as [text|] eqn:Hs; [|left; by injection E as <-].
    rewrite bind_go in E.
    destruct (json_loads text) as [post_data| |e'] eqn:Hl; [|done|].
    2:{ injection E as ->. do 3 right. split; [done|]. exists text. split; [done|]. by left. }
    rewrite bind_go in E.
    assert ((e = TypeError ∧ ¬ is_dict post_data)
            ∨ ∃ d w, post_data = PDict d
                ∧ (dict_get "query" d = Some w ∧ py_str w = Exc e
                   ∨ dict_get "variables" d = Some w ∧ truthy w = true
                     ∧ loads_str w = Uncaught e
                   ∨ dict_get "operationName" d = Some w ∧ truthy w = true
                     ∧ py_str w = Exc e)) as [[-> Hnd] | (d & w & -> & Hw)].
    { apply bind_throw_inv in E as [E | (q & _ & E)].
      { apply body_query_throw in E as [? | (d & w & ? & ?)]; [by left|].
        right. exists d, w. split; [done|]. by left. }
      apply bind_throw_inv in E as [E | (vs & _ & E)].
      { apply body_variables_throw in E as [? | (d & w & ? & ?)]; [by left|].
        right. exists d, w. split; [done|]. right; by left. }
      apply bind_throw_inv in E as [E | (o & _ & E)]; [|done].
      apply body_operation_name_throw in E as [? | (d & w & ? & ?)]; [by left|].
      right. exists d, w. split; [done|]. right; by right. }
    + right; left. do 2 (split; [done|]). by exists text, post_data.
    + do 3 right. split; [done|]. exists text. split; [done|]. right. by exists d, w.
  - destruct (content_type_has "application/graphql" req).
    + unfold graphql_body in E.
      destruct (stream req) as [text|]; [|left; by injection E as <-].
      rewrite bind_go in E. by repeat case_match.
    + by repeat case_match.
Qed.

Lemma on_get_request_throw req resp e :
  on_get_request req resp = Throw e → url_raises req e.
Proof.
  unfold on_get_request, url_raises, decode. intros E.
  apply bind_throw_inv in E as [E | (q & _ & E)]; [by repeat case_match|].
  apply bind_throw_inv in E as [E | (j & _ & E)]; [|done].
  destruct (given req "variables") as [v|]; [|done]. exists v. split; [done|].
  destruct (json_loads (str_param v)); [done..|]. by injection E as ->.
Qed.

Lemma finish_raised (m : flow OperationRequest) resp e :
  out (finish schema m resp) = Raised e →
  m = Throw e ∨ ∃ call, m = Go call ∧ e = RuntimeError ∧ empty_result (schema call).
Proof.
  destruct m as [c| |]; simpl; [|done|intros [= <-]; by left].
  intros E. apply respond_raised in E as [-> ?]. right. exists c. by destruct c.
Qed.

(** A responder raises for one of five reasons only. The engine
    returned neither data nor errors, on GET or POST ([RuntimeError]). The
    body of a POST request is not UTF-8, on the JSON or GraphQL branch
    ([UnicodeDecodeError]). The JSON body of a POST request decodes to a
    value that is not an object ([TypeError]). On GET or POST,
    [json.loads] raises an exception other than [JSONDecodeError] on the
    variables of the URL. On POST with a JSON body, [json.loads] or [str]
    raises such an exception on the text of the body or on a field of the
    object it decodes to. In the last four the engine was not called. In
    particular OPTIONS, HEAD, PUT, PATCH and DELETE never raise. *)
Theorem why_a_responder_raises (m : http_method) (req : request) (e : exn) :
  out (handle schema m req) = Raised e →
  (e = RuntimeError ∧ (m = GET ∨ m = POST)
   ∧ ∃ call, calls (handle schema m req) = [call] ∧ empty_result (schema call))
  ∨ (e = UnicodeDecodeError ∧ m = POST ∧ calls (handle schema m req) = []
     ∧ stream req = None)
  ∨ (e = TypeError ∧ m = POST ∧ calls (handle schema m req) = []
     ∧ content_type_has "application/json" req = true
     ∧ ∃ text post_data, stream req = Some text ∧ json_loads text = Decoded post_data
                         ∧ ¬ is_dict post_data)
  ∨ ((m = GET ∨ m = POST) ∧ calls (handle schema m req) = [] ∧ url_raises req e)
  ∨ (m = POST ∧ calls (handle schema m req) = []
     ∧ content_type_has "application/json" req = true ∧ body_raises req e).
Proof.
  rewrite handle_out, handle_calls. intros E. apply allowing_raised in E.
  destruct m; try done.
  - unfold on_get in *. apply finish_raised in E as [E | (call & -> & -> & Hr)].
    + rewrite E. simpl. apply on_get_request_throw in E. do 3 right. left. auto.
    + left. rewrite finish_go. simpl. eauto 6.
  - unfold on_post in *. apply finish_raised in E as [E | (call & -> & -> & Hr)].
    + rewrite E. simpl.
      apply on_post_request_throw in E as [[-> Hs] | [(-> & Hj & Hpd) | [Hu | [Hj Hb]]]].
      * right; left. done.
      * right; right; left. done.
      * do 3 right. left. auto.
      * do 4 right. done.
    + left. rewrite finish_go. simpl. eauto 6.
Qed.

(** ** The status of a response *)

Lemma bind_reply_inv {A B : Type} (m : flow A) (k : A → flow B) (r : response) :
  (m ≫= k) = Reply r → (∃ a, m = Go a ∧ k a = Reply r) ∨ m = Reply r.
Proof. destruct m as [a| |]; [|intros E|done]; [left; by eexists | right; by injection E as ->]. Qed.

Lemma body_query_reply resp query post_data r :
  body_query resp query post_data = Reply r → rejection resp r.
Proof.
  destruct (not_dict_cases post_data) as [[d ->] | Hnd].
  - rewrite body_query_dict. unfold rejection, bad_request, eval.
    intros E. repeat case_match; simplify_eq; auto.
  - unfold body_query, rejection, bad_request. intros E.
    destruct query; [done|].
    destruct post_data; simpl in E; repeat case_match; simplify_eq; auto;
      destruct Hnd; by eexists.
Qed.

Lemma body_variables_reply resp variables post_data r :
  body_variables resp variables post_data = Reply r → rejection resp r.
Proof.
  destruct (not_dict_cases post_data) as [[d ->] | Hnd].
  - destruct (body_variables_cases resp variables d)
      as [[j ->] | [[-> _] | (e & -> & _)]]; [done| |done].
    intros [= <-]. unfold rejection. auto.
  - unfold body_variables, rejection, bad_request. intros E.
    destruct variables; try done;
      destruct post_data; simpl in E; repeat case_match; simplify_eq; auto;
      destruct Hnd; by eexists.
Qed.

Lemma body_operation_name_reply operation_name post_data r :
  body_operation_name operation_name post_data ≠ Reply r.
Proof.
  destruct (not_dict_cases post_data) as [[d ->] | Hnd].
  - by destruct (body_operation_name_cases operation_name d)
      as [(o & -> & _) | (e & -> & _)].
  - unfold body_operation_name. intros E.
    destruct operation_name; [done|].
    destruct post_data; simpl in E; repeat case_match; simplify_eq.
    destruct Hnd. by eexists.
Qed.

Lemma decode_reply resp text msg r :
  decode resp text msg = Reply r → r = reply resp HTTP_400 (errors_body msg).
Proof. unfold decode, bad_request. intros E. by repeat case_match; simplify_eq. Qed.

Lemma url_variables_reply req resp r :
  url_variables req resp = Reply r → rejection resp r.
Proof.
  unfold url_variables, rejection. intros E.
  destruct (given req "variables"); [|done]. apply decode_reply in E. auto.
Qed.

Lemma on_post_request_reply req resp r :
  on_post_request req resp = Reply r → rejection resp r.
Proof.
  unfold on_post_request. intros E.
  apply bind_reply_inv in E as [(j & _ & E) | E]; [|by apply url_variables_reply in E].
  destruct (content_type_has "application/json" req).
  - unfold json_body in E. destruct (no_content req).
    { injection E as <-. unfold rejection. auto. }
    apply bind_reply_inv in E as [(text & _ & E) | E]; [|by repeat case_match].
    apply bind_reply_inv in E as [(post_data & _ & E) | E].
    2:{ apply decode_reply in E. unfold rejection. auto. }
    apply bind_reply_inv in E as [(q & _ & E) | E]; [|by apply body_query_reply in E].
    apply bind_reply_inv in E as [(vs & _ & E) | E]; [|by apply body_variables_reply in E].
    apply bind_reply_inv in E as [(o & _ & E) | E]; [done|].
    by apply body_operation_name_reply in E.
  - destruct (content_type_has "application/graphql" req).
    + unfold graphql_body in E.
      apply bind_reply_inv in E as [(text & _ & E) | E]; [|by repeat case_match].
      apply bind_reply_inv in E as [(q & _ & E) | E]; [done|].
      unfold rejection. repeat case_match; unfold bad_request in *; simplify_eq; auto.
    + unfold rejection. repeat case_match; unfold bad_request in *; simplify_eq; auto.
Qed.

Lemma on_get_request_reply req resp r :
  on_get_request req resp = Reply r → rejection resp r.
Proof.
  unfold on_get_request, rejection. intros E.
  apply bind_reply_inv in E as [(q & _ & E) | E]; [|repeat case_match; unfold bad_request in *; simplify_eq; auto].
  apply bind_reply_inv in E as [(j & _ & E) | E]; [done|].
  destruct (given req "variables"); [|done]. apply decode_reply in E. auto.
Qed.
Lemma respond_status result resp r :
  respond result resp = Responded r →
  (status r = HTTP_200 ∧ truthy (data result) = true
   ∨ status r = HTTP_400 ∧ truthy (data result) = false)
  ∧ is_Some (body r).
Proof.
  unfold respond. destruct (truthy (data result)).
  - intros [= <-]. simpl. split; [by left | by eexists].
  - destruct (errors result) as [[|x es]|]; [done| |done].
    intros [= <-]. simpl. split; [by right | by eexists].
Qed.

(** How [finish] responds: with a rejection and no call of the engine,
    or with the response to the result of one call. *)
Lemma finish_responded (m : flow OperationRequest) resp r :
  out (finish schema m resp) = Responded r →
  (m = Reply r ∧ calls (finish schema m resp) = [])
  ∨ ∃ call, m = Go call ∧ calls (finish schema m resp) = [call]
            ∧ respond (schema call) resp = Responded r.
Proof.
  destruct m as [c| |]; [rewrite finish_go|..]; simpl; [|intros [= <-]; by left|done].
  intros E. right. by exists c.
Qed.

Lemma request_responded (m : http_method) req resp :
  m = GET ∨ m = POST →
  out (handle schema m req) = Responded resp →
  ∃ r, resp = set_graphql_allow_header req r
       ∧ ((rejection fresh_response r ∧ calls (handle schema m req) = [])
          ∨ ∃ call, calls (handle schema m req) = [call]
                    ∧ respond (schema call) fresh_response = Responded r).
Proof.
  intros Hm. rewrite handle_out, handle_calls.
  destruct (out _) as [r|] eqn:E; [|done]. simpl. intros [= <-]. exists r. split; [done|].
  destruct Hm as [-> | ->]; unfold on_get, on_post in *;
    apply finish_responded in E as [[E ->] | (call & E & -> & Hr)];
    [left | right; by exists call | left | right; by exists call]; split; try done.
  - by apply on_get_request_reply in E.
  - by apply on_post_request_reply in E.
Qed.

(** Every response of GET and of POST has status 200 or 400 and a body;
    the status is 200 exactly when the engine was called and returned
    truthy data; and a response made without a call of the engine is one
    of three: 400 with [Must provide query string.],
    [Variables are invalid JSON.] or [POST body sent invalid JSON.]. *)
Theorem ok_only_with_data (m : http_method) (req : request) (resp : response) :
  m = GET ∨ m = POST →
  out (handle schema m req) = Responded resp →
  (status resp = HTTP_200 ∨ status resp = HTTP_400)
  ∧ is_Some (body resp)
  ∧ (status resp = HTTP_200
     ↔ ∃ call, calls (handle schema m req) = [call] ∧ truthy (data (schema call)) = true)
  ∧ (calls (handle schema m req) = [] →
     status resp = HTTP_400
     ∧ (body resp = Some (lit "{'errors':[{'message':'Must provide query string.'}]}")
        ∨ body resp = Some (lit "{'errors':[{'message':'Variables are invalid JSON.'}]}")
        ∨ body resp = Some (lit "{'errors':[{'message':'POST body sent invalid JSON.'}]}"))).
Proof.
  intros Hm E.
  destruct (request_responded m req resp Hm E)
    as (r & -> & [[Hrej Hc] | (call & Hc & Hr)]); rewrite Hc; simpl.
  - assert (status r = HTTP_400 ∧ is_Some (body r)) as [Hst Hb].
    { destruct Hrej as [-> | [-> | ->]]; by eauto. }
    rewrite Hst. split; [by right|]. split; [done|]. split.
    + split; [done | by intros (? & ? & _)].
    + intros _. split; [done|]. by destruct Hrej as [-> | [-> | ->]]; auto.
  - apply respond_status in Hr as [[[-> Ht] | [-> Ht]] Hb].
    + split; [by left|]. split; [done|]. split; [|done]. split; [|done]. intros _. by exists call.
    + split; [by right|]. split; [done|]. split; [|done]. split; [done|].
      intros (c' & [= <-] & Ht'). congruence.
Qed.

(** ** A JSON body that is not an object *)

(** A POST request with a JSON body that decodes to [null], a boolean or
    a number (and URL variables that decode, if any): with a query in the
    URL and no operation name in the URL, the responder raises a
    [TypeError], for the key [operationName] is looked up in the body
    without a test of the body; without a query in the URL it raises as
    well when the value is truthy, and answers 400
    [Must provide query string.] when it is falsy. The engine is not
    called. *)
Theorem scalar_json_body (req : request) (text : string) (post_data : pyval) :
  content_type_has "application/json" req = true →
  no_content req = false →
  stream req = Some text →
  json_loads text = Decoded post_data →
  scalar post_data →
  url_variables_decode req →
  (is_Some (given req "query") → given req "operationName" = None →
     out (handle schema POST req) = Raised TypeError
     ∧ calls (handle schema POST req) = [])
  ∧ (given req "query" = None → truthy post_data = true →
       out (handle schema POST req) = Raised TypeError
       ∧ calls (handle schema POST req) = [])
  ∧ (given req "query" = None → truthy post_data = false →
       answers (handle schema POST req) HTTP_400
         (lit "{'errors':[{'message':'Must provide query string.'}]}")
       ∧ calls (handle schema POST req) = []).
Proof.
  intros Hj Hlen Hs Hd Hsc Hv.
  destruct (url_variables_decoded req fresh_response Hv) as [j Ej].
  assert (Hpost : on_post_request req fresh_response
            = (query ← body_query fresh_response (url_query req) post_data;
               variables ← body_variables fresh_response j post_data;
               operation_name ← body_operation_name (url_operation_name req) post_data;
               Go {| op_query := query; op_variables := variables;
                     op_name := operation_name |})).
  { unfold on_post_request. rewrite Ej, bind_go, Hj.
    apply (json_body_decoded _ _ _ _ _ _ _ Hlen Hs Hd). }
  split; [|split].
  - intros [q Hq] Ho. apply post_raised. rewrite Hpost.
    unfold url_query, url_operation_name. rewrite Hq, Ho.
    destruct post_data; try done; destruct j; simpl; by repeat case_match.
  - intros Hq Ht. apply post_raised. rewrite Hpost.
    unfold url_query. rewrite Hq. unfold body_query. rewrite Ht.
    by destruct post_data.
  - intros Hq Ht. apply post_replied. rewrite Hpost.
    unfold url_query. rewrite Hq. unfold body_query. by rewrite Ht.
Qed.

(** ** The variables of a request that gives none *)

(** When the URL gives no variables, the engine gets: the empty string
    on GET; [None] on POST with a content type other than JSON; and on POST
    with a JSON body that is an object, the decoded text of the field
    [variables] when it is truthy, the empty string when it is missing or
    falsy. *)
Theorem variables_by_default (req : request) (call : OperationRequest) :
  given req "variables" = None →
  (calls (handle schema GET req) = [call] → op_variables call = PStr "")
  ∧ (content_type_has "application/json" req = false →
     calls (handle schema POST req) = [call] → op_variables call = PNone)
  ∧ (∀ text d,
       content_type_has "application/json" req = true →
       stream req = Some text → json_loads text = Decoded (PDict d) →
       calls (handle schema POST req) = [call] →
       match dict_get "variables" d with
       | Some v =>
           if truthy v then loads_str v = Decoded (op_variables call)
           else op_variables call = PStr ""
       | None => op_variables call = PStr ""
       end).
Proof.
  intros Hv. split; [|split].
  - intros E. apply get_calls in E. unfold on_get_request in E. rewrite Hv in E.
    apply bind_go_inv in E as (q & _ & E). rewrite bind_go in E. by injection E as <-.
  - intros Hj E. apply post_calls in E. unfold on_post_request, url_variables in E.
    rewrite Hv, bind_go, Hj in E.
    destruct (content_type_has "application/graphql" req).
    + by apply graphql_body_keeps in E as (_ & -> & _).
    + destruct (url_query req); [|done]. by injection E as <-.
  - intros text d Hj Hs Hd E. apply post_calls in E.
    unfold on_post_request, url_variables in E. rewrite Hv, bind_go, Hj in E.
    unfold json_body in E. destruct (no_content req); [done|].
    unfold decode in E. rewrite Hs, bind_go, Hd, bind_go in E.
    apply bind_go_inv in E as (q & _ & E).
    apply bind_go_inv in E as (j & Ej & E).
    apply bind_go_inv in E as (o & _ & E). injection E as <-. simpl.
    rewrite body_variables_dict in Ej.
    destruct (dict_get "variables" d) as [v|]; [|by injection Ej as <-].
    destruct (truthy v); [|by injection Ej as <-].
    destruct (loads_str v); [by injection Ej as <- | done..].
Qed.

(** ** POST with the URL parameters alone *)

(** A POST request whose content type is neither JSON nor GraphQL (a
    form, or none) is read from its parameters like a GET request when
    they hold a query and variables: the two runs are the same. They part
    when there is no query and the variables are not JSON: GET looks at
    the query first and answers [Must provide query string.], POST at the
    variables first and answers [Variables are invalid JSON.]. *)
Theorem post_of_parameters_like_get (req : request) :
  content_type_has "application/json" req = false →
  content_type_has "application/graphql" req = false →
  (is_Some (given req "query") → is_Some (given req "variables") →
     handle schema POST req = handle schema GET req)
  ∧ (∀ v, given req "query" = None → given req "variables" = Some v →
          json_loads (str_param v) = JSONDecodeError →
          answers (handle schema GET req) HTTP_400
            (lit "{'errors':[{'message':'Must provide query string.'}]}")
          ∧ answers (handle schema POST req) HTTP_400
              (lit "{'errors':[{'message':'Variables are invalid JSON.'}]}")).
Proof.
  intros Hj Hg. split.
  - intros [q Hq] [v Hv].
    assert (E : on_post_request req fresh_response = on_get_request req fresh_response).
    { unfold on_post_request, on_get_request, url_variables, url_query.
      rewrite Hq, Hv, Hj, Hg, bind_go. unfold decode. by destruct (json_loads (str_param v)). }
    unfold handle, responder. cbv beta iota. unfold after, on_post, on_get. by rewrite E.
  - intros v Hq Hv Hl. split.
    + apply get_replied. unfold on_get_request. by rewrite Hq.
    + apply post_replied. unfold on_post_request, url_variables, decode. by rewrite Hv, Hl.
Qed.

(** ** No blank between the tokens of a body *)

Lemma has_blank_app (a b : string) : has_blank (a +:+ b) = has_blank a || has_blank b.
Proof.
  induction a as [|c a IH]; [done|].
  change (blank c || has_blank (a +:+ b) = blank c || has_blank a || has_blank b).
  by rewrite IH, orb_assoc.
Qed.

(** An escaped character holds a blank only when it is a space: tabs and
    line ends are written as escapes. *)
Lemma has_blank_escape_char (c : ascii) :
  has_blank (escape_char c) = Nat.eqb (nat_of_ascii c) 32.
Proof. by destruct c as [[] [] [] [] [] [] [] []]. Qed.

Lemma has_blank_escape (s : string) : has_blank (escape s) = has_space s.
Proof.
  induction s as [|c s IH]; [done|].
  cbn [escape has_space]. by rewrite has_blank_app, has_blank_escape_char, IH.
Qed.

Lemma has_blank_quoted (s : string) : has_blank (quoted s) = has_space s.
Proof.
  unfold quoted. cbn [has_blank]. rewrite has_blank_app, has_blank_escape.
  cbn. by rewrite !orb_false_r.
Qed.

Lemma has_blank_uint (d : Decimal.uint) : has_blank (NilEmpty.string_of_uint d) = false.
Proof. induction d; cbn [NilEmpty.string_of_uint has_blank]; by rewrite ?IHd. Qed.

Lemma has_blank_str_int (n : Z) : has_blank (str_int n) = false.
Proof.
  unfold str_int. destruct (Z.to_int n) as [d|d]; cbn [NilZero.string_of_int].
  - unfold NilZero.string_of_uint. destruct d; try apply has_blank_uint. done.
  - cbn [has_blank]. unfold NilZero.string_of_uint.
    destruct d; try (rewrite has_blank_uint; done). done.
Qed.

Lemma has_blank_dumps_float (r : string) : has_blank (dumps_float r) = has_blank r.
Proof.
  unfold dumps_float.
  destruct (String.eqb_spec r "nan") as [-> | _]; [done|].
  destruct (String.eqb_spec r "inf") as [-> | _]; [done|].
  by destruct (String.eqb_spec r "-inf") as [-> | _].
Qed.

Lemma has_blank_concat (l : list string) :
  has_blank (String.concat "," l) = existsb has_blank l.
Proof.
  induction l as [|x [|y l] IH]; [done| |].
  - cbn. by rewrite orb_false_r.
  - change (String.concat "," (x :: y :: l)) with (x +:+ "," +:+ String.concat "," (y :: l)).
    rewrite !has_blank_app, IH. cbn [existsb has_blank]. done.
Qed.

(** With the separators [(',', ':')] the serialization puts no blank
    between tokens: the text of a value holds a blank exactly when a
    string or a key of the value holds a space (a tab or a line end in a
    string is written as an escape). *)
Theorem compact_serialization (v : pyval) :
  has_blank (json_dumps v) = negb (spaceless v).
Proof.
  revert v. fix IH 1. intros [| [] |n|r|s|l|d]; try reflexivity.
  - apply has_blank_str_int.
  - cbn [json_dumps spaceless]. rewrite has_blank_dumps_float. symmetry. apply negb_involutive.
  - cbn [json_dumps spaceless]. rewrite has_blank_quoted. symmetry. apply negb_involutive.
  - cbn [json_dumps spaceless]. rewrite !has_blank_app, has_blank_concat.
    change (has_blank "[") with false. change (has_blank "]") with false.
    rewrite orb_false_r. cbn [orb].
    induction l as [|x l IHl]; [reflexivity|].
    cbn [map existsb forallb]. rewrite (IH x), IHl. symmetry. apply negb_andb.
  - cbn [json_dumps spaceless]. rewrite !has_blank_app, has_blank_concat.
    change (has_blank "{") with false. change (has_blank "}") with false.
    rewrite orb_false_r. cbn [orb].
    induction d as [|[k x] d IHd]; [reflexivity|].
    cbn [map existsb forallb fst snd].
    rewrite !has_blank_app, has_blank_quoted, (IH x), IHd.
    change (has_blank ":") with false. cbn [orb].
    rewrite !negb_andb, negb_involutive. reflexivity.
Qed.

(** ** Which requests read the body *)

(** GET, OPTIONS, HEAD, PUT, PATCH and DELETE never read the body of the
    request, nor its content type and length; POST does not either when
    the content type is neither JSON nor GraphQL. OPTIONS, HEAD, PUT,
    PATCH and DELETE do not read the URL parameters and never call the
    engine; HEAD answers 200 without a body. *)
Theorem body_not_read (m : http_method) (req : request)
    (ct : option string) (cl : option N) (st : option string) :
  (m ≠ POST → handle schema m (with_body req ct cl st) = handle schema m req)
  ∧ (content_type_has "application/json" req = false →
     content_type_has "application/graphql" req = false →
     handle schema POST (with_body req (content_type req) cl st)
     = handle schema POST req)
  ∧ (m ≠ GET → m ≠ POST →
     ∀ req', handle schema m req' = handle schema m req
             ∧ calls (handle schema m req) = [])
  ∧ out (handle schema HEAD req)
    = Responded {| status := HTTP_200; body := None;
                   headers := {[ "Allow" := "GET, POST, OPTIONS" ]} |}.
Proof.
  split; [|split; [|split]].
  - by destruct m.
  - intros Hj Hg. unfold handle, responder. cbv beta iota. unfold after, on_post.
    assert (E : on_post_request (with_body req (content_type req) cl st) fresh_response
                = on_post_request req fresh_response).
    { unfold on_post_request.
      change (content_type_has "application/json" (with_body req (content_type req) cl st))
        with (content_type_has "application/json" req).
      change (content_type_has "application/graphql" (with_body req (content_type req) cl st))
        with (content_type_has "application/graphql" req).
      by rewrite Hj, Hg. }
    by rewrite E.
  - by destruct m.
  - done.
Qed.

(** A POST request whose body is not UTF-8 and whose URL variables
    decode, if any: on the JSON branch with a content length, and on the
    GraphQL branch, the responder raises [UnicodeDecodeError] without a
    call of the engine, also when the URL gives the query and the body is
    not needed for it. *)
Theorem undecodable_body_raises (req : request) :
  stream req = None →
  url_variables_decode req →
  (content_type_has "application/json" req = true ∧ no_content req = false)
  ∨ (content_type_has "application/json" req = false
     ∧ content_type_has "application/graphql" req = true) →
  out (handle schema POST req) = Raised UnicodeDecodeError
  ∧ calls (handle schema POST req) = [].
Proof.
  intros Hs Hv Hct. apply post_raised. unfold on_post_request.
  destruct (url_variables_decoded req fresh_response Hv) as [j ->]. rewrite bind_go.
  destruct Hct as [[-> Hlen] | [-> ->]].
  - unfold json_body. by rewrite Hlen, Hs.
  - unfold graphql_body. by rewrite Hs.
Qed.

(** A POST request with a JSON body that decodes to a string or a list,
    no query in the URL, and URL variables that decode, if any: when
    [query] is a part of the string, or an element of the list, the
    responder takes the body for one that has the field, subscripts it and
    raises a [TypeError]; otherwise the answer is 400
    [Must provide query string.]. The engine is not called. *)
Theorem string_or_list_json_body (req : request) (text : string) (post_data : pyval) :
  content_type_has "application/json" req = true →
  no_content req = false →
  stream req = Some text →
  json_loads text = Decoded post_data →
  (∃ s, post_data = PStr s) ∨ (∃ l, post_data = PList l) →
  given req "query" = None →
  url_variables_decode req →
  (py_in "query" post_data = Val true →
     out (handle schema POST req) = Raised TypeError
     ∧ calls (handle schema POST req) = [])
  ∧ (py_in "query" post_data = Val false →
       answers (handle schema POST req) HTTP_400
         (lit "{'errors':[{'message':'Must provide query string.'}]}")
       ∧ calls (handle schema POST req) = []).
Proof.
  intros Hj Hlen Hs Hd Hpd Hq Hv.
  destruct (url_variables_decoded req fresh_response Hv) as [j Ej].
  assert (Hpost : ∀ k, body_query fresh_response None post_data = k →
            (∀ q, k ≠ Go q) → on_post_request req fresh_response
            = match k with Go q => Throw TypeError | Reply r => Reply r | Throw e => Throw e end).
  { intros k Hk Hgo. unfold on_post_request. rewrite Ej, bind_go, Hj.
    rewrite (json_body_decoded _ _ _ _ _ _ _ Hlen Hs Hd).
    unfold url_query. rewrite Hq, Hk. destruct k; [by destruct (Hgo a)|done..]. }
  split; intros Hin.
  - apply post_raised.
    rewrite (Hpost (Throw TypeError)); [done| |done].
    unfold body_query. destruct Hpd as [[s ->] | [l ->]]; injection Hin as Hin.
    + destruct s; [by vm_compute in Hin|]. simpl. cbn in Hin. by rewrite Hin.
    + destruct l; [done|]. simpl. cbn in Hin. by rewrite Hin.
  - apply post_replied.
    rewrite (Hpost (bad_request fresh_response "Must provide query string.")); [done| |done].
    unfold body_query. destruct Hpd as [[s ->] | [l ->]]; injection Hin as Hin.
    + destruct s; [done|]. simpl. cbn in Hin. by rewrite Hin.
    + destruct l; [done|]. simpl. cbn in Hin. by rewrite Hin.
Qed.

(** ** The headers of a response *)

(** The resource sets one header and no other: the headers of every
    response, for every method, are [Allow: GET, POST, OPTIONS] alone. *)
Theorem only_the_allow_header (m : http_method) (req : request) (resp : response) :
  out (handle schema m req) = Responded resp →
  headers resp = {[ "Allow" := "GET, POST, OPTIONS" ]}.
Proof.
  intros E.
  assert (Hread : m = GET ∨ m = POST →
            headers resp = {[ "Allow" := "GET, POST, OPTIONS" ]}).
  { intros Hm.
    destruct (request_responded m req resp Hm E) as (r & -> & [[Hrej _] | (call & _ & Hr)]).
    - by destruct Hrej as [-> | [-> | ->]].
    - unfold respond in Hr. repeat case_match; by simplify_eq. }
  destruct m; auto; by injection E as <-.
Qed.

End Facts.

(* ===================================================================== *)
(** * Properties of StaticGraphiQLResource                                *)
(* ===================================================================== *)

Section StaticFacts.

Import Static.

Variable files : gmap string string.

(** A file that is served is served with status 200, and its content
    type follows from the name in the URL alone: HTML exactly when there
    is no name, CSS exactly for the name [graphiql.css], JavaScript for
    any other name (another style sheet, or [graphiql.html] asked by
    name, included). *)
Theorem static_content_type (resp r : static_response) (static_file : option string) :
  on_get files resp static_file = Served r →
  served_status r = HTTP_200
  ∧ (served_type r = Some "text/html; charset=UTF-8" ↔ static_file = None)
  ∧ (served_type r = Some "text/css; charset=UTF-8"
     ↔ static_file = Some "graphiql.css")
  ∧ (served_type r = Some "application/javascript; charset=UTF-8"
     ↔ ∃ f, static_file = Some f ∧ f ≠ "graphiql.css").
Proof.
  unfold on_get. destruct static_file as [f|]; cbv zeta.
  - destruct (files !! _); [|done]. intros [= <-]. simpl.
    destruct (String.eqb_spec f "graphiql.css") as [-> | Hne];
      (split; [done|]); (split; [done|]); (split; [split; [done|]|]).
    + by intros _.
    + split; [done|]. by intros (f & [= <-] & ?).
    + by intros [= ->].
    + split; [|done]. intros _. by exists f.
  - destruct (files !! _); [|done]. intros [= <-]. simpl.
    repeat split; try done. by intros (f & ? & _).
Qed.

(** The responder serves the files of the directory [graphiql/] and no
    other: it raises exactly when the file of the name is not there, and
    what it serves is the contents of that file. The page is there under
    two names, [/graphiql] and [/graphiql/graphiql.html]: both serve the
    same contents or both raise, the first as HTML and the second as
    JavaScript. *)
Theorem static_files_served (resp : static_response) :
  (∀ static_file,
     let path := "graphiql/" +:+ default "graphiql.html" static_file in
     match on_get files resp static_file with
     | Served r => is_Some (files !! path) ∧ served_stream r = files !! path
     | OSError => files !! path = None
     end)
  ∧ match on_get files resp None, on_get files resp (Some "graphiql.html") with
    | Served page, Served named =>
        served_stream page = served_stream named
        ∧ served_type page = Some "text/html; charset=UTF-8"
        ∧ served_type named = Some "application/javascript; charset=UTF-8"
    | OSError, OSError => True
    | _, _ => False
    end.
Proof.
  split.
  - intros static_file path. unfold on_get.
    destruct static_file as [f|]; cbv zeta; subst path; simpl;
      destruct (files !! _) eqn:E; simpl; by eauto.
  - unfold on_get. cbv zeta. simpl. by destruct (files !! _).
Qed.

End StaticFacts.

(* ===================================================================== *)
(** * Properties of the resolvers                                         *)
(* ===================================================================== *)

Section DiceFacts.

Import Query.

Variable rng : Type.
Variable draw : Z → rng → Z * rng.

(** What [randrange] needs of the generator: a draw below [n] is a number
    from 0 to [n - 1]. *)
Hypothesis draw_below : ∀ n s, (0 < n)%Z → (0 ≤ (draw n s).1 < n)%Z.

Lemma randrange_within start stop s :
  (start < stop)%Z →
  ∃ x s', randrange rng draw start stop s = (Rolled x, s') ∧ (start ≤ x < stop)%Z.
Proof.
  intros Hlt. unfold randrange.
  destruct (Z.leb_spec stop start) as [Hle | _]; [lia|].
  pose proof (draw_below (stop - start) s ltac:(lia)) as Hd.
  destruct (draw (stop - start) s) as [r s']. simpl in Hd.
  exists (start + r)%Z, s'. split; [done | lia].
Qed.

Lemma rolls_within n stop s :
  (1 < stop)%Z →
  ∃ l s', rolls rng draw n stop s = (Rolled l, s')
          ∧ length l = n ∧ Forall (λ x, 1 ≤ x < stop)%Z l.
Proof.
  intros Hstop. revert s. induction n as [|n IH]; intros s.
  - exists [], s. by repeat split.
  - destruct (randrange_within 1 stop s Hstop) as (x & s1 & Ex & Hx).
    destruct (IH s1) as (l & s2 & El & Hlen & Hall).
    exists (x :: l), s2. cbn [rolls]. rewrite Ex, El.
    split; [done|]. split; [by rewrite <- Hlen | by constructor].
Qed.

(** With a number of sides that is at least 1 (6 when [sides] is not
    given), [rollDice] returns as many numbers as [dice] says, none for a
    [dice] that is negative, each from 1 to the number of sides. *)
Theorem roll_dice_values (args : dice_args) (s : rng) :
  (1 ≤ default 6 (sides args))%Z →
  ∃ l s', resolve_roll_dice rng draw args s = (Rolled l, s')
          ∧ length l = Z.to_nat (dice args)
          ∧ Forall (λ x, 1 ≤ x ≤ default 6 (sides args))%Z l.
Proof.
  intros Hsides. unfold resolve_roll_dice. cbv zeta.
  destruct (rolls_within (Z.to_nat (dice args)) (default 6 (sides args) + 1)%Z s)
    as (l & s' & E & Hlen & Hall); [lia|].
  exists l, s'. split; [done|]. split; [done|].
  eapply Forall_impl; [exact Hall|]. intros x Hx. simpl in Hx. lia.
Qed.

End DiceFacts.

Section DiceEdges.

Import Query.

Variable rng : Type.
Variable draw : Z → rng → Z * rng.

(** [rollDice] with a [dice] that is zero or negative returns the empty
    list without a draw, whatever [sides] is; with a [dice] of 1 or more
    and a [sides] that is zero or negative it raises the [ValueError] of
    [randrange] at the first draw. *)
Theorem roll_dice_edges (args : dice_args) (s : rng) :
  ((dice args ≤ 0)%Z → resolve_roll_dice rng draw args s = (Rolled [], s))
  ∧ ((0 < dice args)%Z → (default 6 (sides args) ≤ 0)%Z →
     resolve_roll_dice rng draw args s = (ValueError, s)).
Proof.
  unfold resolve_roll_dice. cbv zeta. split.
  - intros Hd. by replace (Z.to_nat (dice args)) with 0 by lia.
  - intros Hd Hs. destruct (Z.to_nat (dice args)) as [|n] eqn:En; [lia|].
    cbn [rolls]. unfold randrange.
    by destruct (Z.leb_spec (default 6 (sides args) + 1)%Z 1%Z) as [_ | Hlt]; [|lia].
Qed.

End DiceEdges.

(* ===================================================================== *)
(** * Closed instances                                                    *)
(* ===================================================================== *)

(** The statements of this part are about [Ref.builtins], the engines of
    [Ref] and [Sample], and the requests of [Sample]. *)

(** An answer that the responders compute. *)
Ltac computed_answer := eexists; split; [reflexivity|]; split; reflexivity.

Lemma C4_get_without_query_witness :
  absent_or_empty Sample.get_nothing "query"
  ∧ answers (handle Ref.hello_schema GET Sample.get_nothing) HTTP_400
      (lit "{'errors':[{'message':'Must provide query string.'}]}")
  ∧ calls (handle Ref.hello_schema GET Sample.get_nothing) = [].
Proof.
  assert (Ha : absent_or_empty Sample.get_nothing "query") by (left; reflexivity).
  split; [exact Ha|].
  destruct (C4_get_without_query Ref.hello_schema Sample.get_nothing Ha) as (Hr & Hc & _).
  split; [exact Hr | exact Hc].
Defined.

Lemma C6_graphql_body_witness :
  calls (handle Ref.hello_schema POST Sample.graphql_hello)
  = [ {| op_query := "{hello}"; op_variables := PNone; op_name := None |} ]
  ∧ answers (handle Ref.hello_schema POST Sample.graphql_hello) HTTP_200
      (lit "{'data':{'hello':'Hello world!'}}")
  ∧ answers (handle Ref.hello_schema POST Sample.graphql_nothing) HTTP_400
      (lit "{'errors':[{'message':'Must provide query string.'}]}")
  ∧ calls (handle Ref.hello_schema POST Sample.graphql_with_url)
    = [ {| op_query := "{hello}"; op_variables := PDict [("x", PInt 1)];
           op_name := Some "Hello" |} ]
  ∧ (∀ call, calls (handle Ref.hello_schema POST Sample.graphql_with_url) = [call] →
             json_loads (lit "{'x':1}") = Decoded (op_variables call)
             ∧ op_name call = Some "Hello").
Proof.
  destruct (C6_graphql_body Ref.hello_schema Sample.graphql_hello "{hello}"
              eq_refl eq_refl eq_refl) as (Hfull & _ & _).
  destruct (C6_graphql_body Ref.hello_schema Sample.graphql_nothing ""
              eq_refl eq_refl eq_refl) as (_ & Hempty & _).
  destruct (C6_graphql_body Ref.hello_schema Sample.graphql_with_url "{hello}"
              eq_refl eq_refl eq_refl) as (_ & _ & Hurl).
  specialize (Hfull eq_refl ltac:(discriminate)). cbv zeta in Hfull.
  specialize (Hempty eq_refl eq_refl).
  rewrite Hfull. split; [reflexivity|]. split; [computed_answer|].
  split; [exact (proj1 Hempty)|]. split; [reflexivity|].
  intros call Hcall. destruct (Hurl call Hcall) as (Hv & _ & Hn & _). split.
  - apply Hv; [reflexivity | discriminate].
  - apply Hn; [reflexivity | discriminate].
Defined.

Lemma C9_method_dispatch_witness :
  ∃ resp, out (handle Ref.hello_schema GET Sample.get_hello) = Responded resp
          ∧ headers resp !! "Allow" = Some "GET, POST, OPTIONS".
Proof.
  eexists. split; [reflexivity|].
  destruct (C9_method_dispatch Ref.hello_schema) as (_ & _ & Hallow & _).
  apply (Hallow GET Sample.get_hello). reflexivity.
Defined.



Lemma C10_body_query_coerced_witness :
  ∃ call, calls (handle Ref.hello_schema POST Sample.number_query_and_name) = [call]
          ∧ py_str (PInt 42) = Val (op_query call)
          ∧ op_query call = "42" ∧ op_name call = Some "7".
Proof.
  assert (Hd : json_loads (lit "{'query':42,'operationName':7}")
               = Decoded (PDict [("query", PInt 42); ("operationName", PInt 7)]))
    by (vm_compute; reflexivity).
  destruct (C10_body_query_coerced Ref.hello_schema Sample.number_query_and_name
              (lit "{'query':42,'operationName':7}")
              [("query", PInt 42); ("operationName", PInt 7)] (PInt 42)
              eq_refl eq_refl eq_refl Hd eq_refl eq_refl eq_refl)
    as [[[(u & Hu & _) | (w & Hw & _)] _]
       | [(call & Hcalls & Hquery & Hname) | (e & Hout & _)]].
  - discriminate Hu.
  - discriminate Hw.
  - exists call. split; [exact Hcalls|]. split; [exact Hquery|].
    split; [by injection Hquery as <-|].
    destruct (Hname eq_refl (PInt 7) eq_refl eq_refl) as (name & Hstr & Hop).
    by injection Hstr as <-.
  - discriminate Hout.
Defined.

Lemma C7_neither_data_nor_errors_witness :
  out (handle Sample.silent_schema GET Sample.get_hello) = Raised RuntimeError
  ∧ out (handle Sample.silent_schema POST Sample.graphql_hello) = Raised RuntimeError.
Proof.
  split.
  - apply (C7_neither_data_nor_errors Sample.silent_schema GET Sample.get_hello
             {| op_query := "{hello}"; op_variables := PStr ""; op_name := None |}).
    + by left.
    + reflexivity.
    + reflexivity.
    + by left.
  - apply (C7_neither_data_nor_errors Sample.silent_schema POST Sample.graphql_hello
             {| op_query := "{hello}"; op_variables := PNone; op_name := None |}).
    + by right.
    + reflexivity.
    + reflexivity.
    + by left.
Defined.

(** POST [/graphql?query={q1}] with the JSON body [{"query":"{q2}"}]: the
    query of the call is [{q1}]. *)
Lemma url_parameters_first_witness :
  calls (handle Ref.hello_schema POST Sample.url_q1_body_q2)
  = [ {| op_query := "{q1}"; op_variables := PStr ""; op_name := None |} ]
  ∧ ∀ call, calls (handle Ref.hello_schema POST Sample.url_q1_body_q2) = [call] →
            op_query call = "{q1}".
Proof.
  split; [reflexivity|]. intros call Hcall.
  destruct (url_parameters_first Ref.hello_schema Sample.url_q1_body_q2 call Hcall)
    as (Hq & _ & _).
  exact (Hq (One "{q1}") eq_refl).
Defined.

(** The body for the data [{"hello":"Hello world!"}], and for two errors. *)
Lemma response_to_result_witness :
  respond {| data := PDict [("hello", PStr "Hello world!")]; errors := None |}
    fresh_response
  = Responded (reply fresh_response HTTP_200 (lit "{'data':{'hello':'Hello world!'}}"))
  ∧ respond {| data := PNone;
               errors := Some [ {| message := "first"; locations := [(1, 2)] |};
                                {| message := "second"; locations := [] |} ] |}
      fresh_response
    = Responded (reply fresh_response HTTP_400
                   (lit "{'errors':[{'message':'first'},{'message':'second'}]}")).
Proof.
  split.
  - rewrite (proj1 (response_to_result
                      {| data := PDict [("hello", PStr "Hello world!")]; errors := None |}
                      fresh_response) eq_refl).
    reflexivity.
  - rewrite (proj2 (response_to_result
                      {| data := PNone;
                         errors := Some [ {| message := "first"; locations := [(1, 2)] |};
                                          {| message := "second"; locations := [] |} ] |}
                      fresh_response) _ eq_refl eq_refl ltac:(discriminate)).
    reflexivity.
Defined.

Lemma query_not_empty_witness :
  op_query {| op_query := "{hello}"; op_variables := PStr ""; op_name := None |} ≠ "".
Proof.
  assert (Hrepr : ∀ l, repr_strings l ≠ "").
  { intros l.
    change (String "[" (String.concat ", " (map (λ s, "'" +:+ s +:+ "'") l) +:+ "]") ≠ "").
    discriminate. }
  exact (proj1 (query_not_empty Ref.hello_schema Sample.get_hello _ Hrepr) eq_refl).
Defined.


(** ** Where the claims as written fail *)




(** C6, as written, fails on a POST request of content type
    [application/graphql], with no URL parameter, whose body is two bytes
    that are not UTF-8: the body is not empty, and no query is executed
    and no 400 answers; the [UnicodeDecodeError] of the decoding leaves
    the responder. *)
Lemma C6_counterexample :
  content_type_has "application/json" Sample.graphql_not_utf8 = false
  ∧ content_type_has "application/graphql" Sample.graphql_not_utf8 = true
  ∧ params Sample.graphql_not_utf8 = ∅
  ∧ content_length Sample.graphql_not_utf8 = Some 2%N
  ∧ stream Sample.graphql_not_utf8 = None
  ∧ out (handle Ref.hello_schema POST Sample.graphql_not_utf8)
    = Raised UnicodeDecodeError
  ∧ calls (handle Ref.hello_schema POST Sample.graphql_not_utf8) = [].
Proof. repeat split; reflexivity. Qed.

(** C9, as written, fails on POST with the JSON body [5]: the request
    ends with a [TypeError], the hook that sets the header does not run,
    and no response with the header [Allow] comes out of the resource. *)
Lemma C9_counterexample :
  out (handle Ref.hello_schema POST Cases.number_body) = Raised TypeError
  ∧ handle Ref.hello_schema POST Cases.number_body
    = on_post Ref.hello_schema Cases.number_body fresh_response
  ∧ ¬ ∃ resp, out (handle Ref.hello_schema POST Cases.number_body) = Responded resp
              ∧ headers resp !! "Allow" = Some "GET, POST, OPTIONS".
Proof.
  repeat split; try reflexivity. intros (resp & Hresp & _). discriminate Hresp.
Qed.

(** C7, as written, fails on GET [/graphql?query={hello}] when the engine
    returns neither data nor errors: no response with a status of its own
    comes out of the responder, the [RuntimeError] of the bare [raise]
    leaves it unhandled. *)
Lemma C7_counterexample :
  calls (handle Sample.silent_schema GET Sample.get_hello)
  = [ {| op_query := "{hello}"; op_variables := PStr ""; op_name := None |} ]
  ∧ Sample.silent_schema
      {| op_query := "{hello}"; op_variables := PStr ""; op_name := None |}
    = {| data := PNone; errors := None |}
  ∧ out (handle Sample.silent_schema GET Sample.get_hello) = Raised RuntimeError
  ∧ ∀ resp, out (handle Sample.silent_schema GET Sample.get_hello) ≠ Responded resp.
Proof. repeat split; try reflexivity. intros resp. discriminate. Qed.

(** C10, as written, fails on the JSON body
    [{"query":42,"variables":"{"}]: the field [query] holds a number, and
    the request is rejected (for its variables) without a call of the
    engine. *)
Lemma C10_counterexample :
  json_loads (lit "{'query':42,'variables':'{'}")
  = Decoded (PDict [("query", PInt 42); ("variables", PStr "{")])
  ∧ given Sample.number_query_bad_variables "query" = None
  ∧ answers (handle Ref.hello_schema POST Sample.number_query_bad_variables) HTTP_400
      (lit "{'errors':[{'message':'Variables are invalid JSON.'}]}")
  ∧ calls (handle Ref.hello_schema POST Sample.number_query_bad_variables) = [].
Proof.
  repeat split; try reflexivity.
  computed_answer.
Qed.

(** ** Where the code departs from the claims *)

(** C1. POST [/graphql?query={a}&variables=null] with the JSON body
    [{"variables":"{\"x\":1}"}]: the variables of the URL are there and
    not empty, they decode to [None], and the engine is called with the
    variables of the body. *)
Theorem C1_url_null_variables_yield_to_body :
  given Sample.url_null_variables "variables" = Some (One "null")
  ∧ json_loads "null" = Decoded PNone
  ∧ calls (handle Ref.hello_schema POST Sample.url_null_variables)
    = [ {| op_query := "{a}"; op_variables := PDict [("x", PInt 1)];
           op_name := None |} ].
Proof. repeat split; reflexivity. Qed.

(** C2. An engine result whose data is an empty object, without errors:
    the data is there, and the responder raises instead of answering 200
    with the body [{"data":{}}]. *)
Theorem C2_empty_data_raises :
  Sample.skipped_schema
    {| op_query := "{hello}"; op_variables := PStr ""; op_name := None |}
  = {| data := PDict []; errors := None |}
  ∧ json_dumps (PDict [("data", PDict [])]) = lit "{'data':{}}"
  ∧ out (handle Sample.skipped_schema GET Sample.get_hello) = Raised RuntimeError.
Proof. repeat split; reflexivity. Qed.

(** C8. POST with the JSON body [{"query":""}]: the engine is called
    with the empty string as query. *)
Theorem C8_empty_body_query_executed :
  json_loads (lit "{'query':''}") = Decoded (PDict [("query", PStr "")])
  ∧ calls (handle Ref.hello_schema POST Sample.empty_query)
    = [ {| op_query := ""; op_variables := PStr ""; op_name := None |} ].
Proof. repeat split; reflexivity. Qed.

(** ** Instances of the further properties *)

Lemma why_a_responder_raises_witness :
  (out (handle Ref.hello_schema POST Cases.number_body) = Raised TypeError
   ∧ ∃ post_data, json_loads "5" = Decoded post_data ∧ ¬ is_dict post_data)
  ∧ (out (handle Ref.hello_schema GET Sample.get_deep_variables) = Raised RecursionError
     ∧ calls (handle Ref.hello_schema GET Sample.get_deep_variables) = []
     ∧ url_raises Sample.get_deep_variables RecursionError)
  ∧ (out (handle Ref.hello_schema POST Sample.deep_query) = Raised RecursionError
     ∧ calls (handle Ref.hello_schema POST Sample.deep_query) = []
     ∧ body_raises Sample.deep_query RecursionError).
Proof.
  assert (E : out (handle Ref.hello_schema POST Cases.number_body) = Raised TypeError)
    by reflexivity.
  assert (E' : out (handle Ref.hello_schema GET Sample.get_deep_variables)
               = Raised RecursionError)
    by (vm_compute; reflexivity).
  assert (E'' : out (handle Ref.hello_schema POST Sample.deep_query)
                = Raised RecursionError)
    by (vm_compute; reflexivity).
  split; [|split]; (split; [done|]).
  - destruct (why_a_responder_raises Ref.hello_schema POST Cases.number_body TypeError E)
      as [(Hr & _) | [(Hu & _)
         | [(_ & _ & _ & _ & text & post_data & Hs & Hl & Hnd)
           | [(_ & _ & v & Hv & _) | (_ & _ & _ & text & Hs & Hb)]]]].
    + discriminate Hr.
    + discriminate Hu.
    + exists post_data. injection Hs as <-. split; [exact Hl | exact Hnd].
    + discriminate Hv.
    + injection Hs as <-. exfalso.
      assert (Hl : json_loads "5" = Decoded (PInt 5)) by (vm_compute; reflexivity).
      rewrite Hl in Hb. destruct Hb as [Hb | (d & w & Hb & _)]; discriminate Hb.
  - destruct (why_a_responder_raises Ref.hello_schema GET Sample.get_deep_variables
                RecursionError E')
      as [(Hr & _) | [(Hu & _) | [(Ht & _) | [(_ & Hc & Hv) | (Hm & _)]]]].
    + discriminate Hr.
    + discriminate Hu.
    + discriminate Ht.
    + split; [exact Hc | exact Hv].
    + discriminate Hm.
  - destruct (why_a_responder_raises Ref.hello_schema POST Sample.deep_query
                RecursionError E'')
      as [(Hr & _) | [(Hu & _) | [(Ht & _) | [(_ & _ & v & Hv & _) | (_ & Hc & _ & Hb)]]]].
    + discriminate Hr.
    + discriminate Hu.
    + discriminate Ht.
    + discriminate Hv.
    + split; [exact Hc | exact Hb].
Defined.

Lemma ok_only_with_data_witness :
  ∃ resp, out (handle Ref.hello_schema GET Sample.get_hello) = Responded resp
          ∧ status resp = HTTP_200 ∧ is_Some (body resp).
Proof.
  eexists. split; [reflexivity|].
  destruct (ok_only_with_data Ref.hello_schema GET Sample.get_hello _
              (or_introl eq_refl) eq_refl) as (_ & Hb & Hok & _).
  split; [|exact Hb]. apply Hok. eexists. split; reflexivity.
Defined.

Lemma scalar_json_body_witness :
  out (handle Ref.hello_schema POST Cases.null_body_with_query) = Raised TypeError
  ∧ calls (handle Ref.hello_schema POST Cases.null_body_with_query) = [].
Proof.
  assert (Hv : url_variables_decode Cases.null_body_with_query).
  { intros v Hgiven. discriminate Hgiven. }
  assert (Hl : json_loads "null" = Decoded PNone) by (vm_compute; reflexivity).
  destruct (scalar_json_body Ref.hello_schema Cases.null_body_with_query "null" PNone
              eq_refl eq_refl eq_refl Hl I Hv) as (Hraise & _ & _).
  apply Hraise; [by eexists | reflexivity].
Defined.

Lemma variables_by_default_witness :
  (∀ call, calls (handle Ref.hello_schema GET Sample.get_hello) = [call] →
           op_variables call = PStr "")
  ∧ (∀ call, calls (handle Ref.hello_schema POST Sample.graphql_hello) = [call] →
             op_variables call = PNone).
Proof.
  split; intros call Hcall.
  - exact (proj1 (variables_by_default Ref.hello_schema Sample.get_hello call eq_refl) Hcall).
  - exact (proj1 (proj2 (variables_by_default Ref.hello_schema Sample.graphql_hello call
                           eq_refl)) eq_refl Hcall).
Defined.

Lemma post_of_parameters_like_get_witness :
  handle Ref.hello_schema POST Cases.form = handle Ref.hello_schema GET Cases.form
  ∧ calls (handle Ref.hello_schema POST Cases.form)
    = [ {| op_query := "{hello}"; op_variables := PDict []; op_name := None |} ].
Proof.
  split; [|reflexivity].
  apply (post_of_parameters_like_get Ref.hello_schema Cases.form eq_refl eq_refl);
    by eexists.
Defined.

Lemma undecodable_body_raises_witness :
  given Cases.not_utf8 "query" = Some (One "{hello}")
  ∧ out (handle Ref.hello_schema POST Cases.not_utf8) = Raised UnicodeDecodeError.
Proof.
  split; [reflexivity|].
  assert (Hv : url_variables_decode Cases.not_utf8).
  { intros v Hgiven. discriminate Hgiven. }
  apply (undecodable_body_raises Ref.hello_schema Cases.not_utf8 eq_refl Hv).
  right. split; reflexivity.
Defined.

Lemma string_or_list_json_body_witness :
  out (handle Ref.hello_schema POST Cases.string_body) = Raised TypeError.
Proof.
  assert (Hv : url_variables_decode Cases.string_body).
  { intros v Hgiven. discriminate Hgiven. }
  assert (Hl : json_loads (lit "'my query'") = Decoded (PStr "my query"))
    by (vm_compute; reflexivity).
  destruct (string_or_list_json_body Ref.hello_schema Cases.string_body
              (lit "'my query'") (PStr "my query") eq_refl eq_refl eq_refl Hl
              (or_introl (ex_intro _ "my query" eq_refl)) eq_refl Hv) as (Hraise & _).
  apply Hraise. reflexivity.
Defined.

Lemma only_the_allow_header_witness :
  ∃ resp, out (handle Ref.hello_schema POST Sample.no_body) = Responded resp
          ∧ headers resp = {[ "Allow" := "GET, POST, OPTIONS" ]}.
Proof.
  eexists. split; [reflexivity|].
  apply (only_the_allow_header Ref.hello_schema POST Sample.no_body). reflexivity.
Defined.

Lemma static_content_type_witness :
  ∃ r, Static.on_get Cases.dashboard Cases.no_response (Some "graphiql.html")
       = Static.Served r
       ∧ Static.served_type r = Some "application/javascript; charset=UTF-8".
Proof.
  eexists. split; [reflexivity|].
  destruct (static_content_type Cases.dashboard Cases.no_response _
              (Some "graphiql.html") eq_refl) as (_ & _ & _ & Hjs).
  apply Hjs. exists "graphiql.html". split; [reflexivity | discriminate].
Defined.

Lemma counter_draw_below (n : Z) (s : nat) :
  (0 < n)%Z → (0 ≤ (Query.counter_draw n s).1 < n)%Z.
Proof. intros Hn. simpl. by apply Z.mod_pos_bound. Qed.

Lemma roll_dice_values_witness :
  ∃ l s', Query.resolve_roll_dice nat Query.counter_draw
            {| Query.dice := 3; Query.sides := None |} 4%nat = (Query.Rolled l, s')
          ∧ length l = 3%nat ∧ Forall (λ x, 1 ≤ x ≤ 6)%Z l.
Proof.
  apply (roll_dice_values nat Query.counter_draw counter_draw_below
           {| Query.dice := 3; Query.sides := None |} 4%nat).
  simpl. lia.
Defined.
